(** * kcavo: the cost-and-optimization engine

    A shallow embedding of [pkg/cost] (pricing.go, calculator.go),
    [pkg/gpu] (analyzer.go) and [pkg/optimize] (recommendations.go),
    together with the properties the specification states about them.

    Go's [float64] is Rocq's primitive binary64 [float]; every operation
    rounds on its own (no fused multiply-add).  Go's [int] and [int64] are
    [Z] with the 64-bit wrap-around written out.  A [corev1.ResourceList]
    is a finite map from resource names to quantities. *)

From Stdlib Require Import ZArith QArith Floats Lia.
From stdpp Require Import gmap strings list pretty sorting.

Set Warnings "-inexact-float".

Local Open Scope Z_scope.

(** ** Go numbers *)

Module GoNum.

(** Two's complement wrap-around of a 64-bit signed integer. *)
Definition wrap64 (z : Z) : Z := (z + 2 ^ 63) mod 2 ^ 64 - 2 ^ 63.

(** [float64(n)] for an [int64] (or [int]) [n]: the nearest binary64. *)
Definition float64_of_int (z : Z) : float :=
  if z =? - 2 ^ 63 then PrimFloat.opp 0x1p63%float
  else if z <? 0 then PrimFloat.opp (PrimFloat.of_uint63 (Uint63.of_Z (- z)))
  else PrimFloat.of_uint63 (Uint63.of_Z z).

(** [x > y] on [float64]. *)
Definition fgt (x y : float) : bool := PrimFloat.ltb y x.

(** [x >= y] on [float64]. *)
Definition fge (x y : float) : bool := PrimFloat.leb y x.

(** [x == y] on [float64] (false as soon as one side is NaN). *)
Definition feq (x y : float) : bool := PrimFloat.eqb x y.

(** Neither NaN nor an infinity. *)
Definition finite64 (x : float) : bool :=
  match Prim2SF x with
  | S754_zero _ | S754_finite _ _ _ => true
  | S754_infinity _ | S754_nan => false
  end.

Definition not_nan (x : float) : bool :=
  match Prim2SF x with S754_nan => false | _ => true end.

End GoNum.
Export GoNum.

(** ** The arithmetic the pricing formulas are written over

    The four conversions of pricing.go use only [*], [/] and the
    conversion of an integer.  They are written once over this interface
    and read at [float] (what the program computes) and at [Q] (the same
    formulas without rounding). *)

Class Arith (F : Type) := {
  fmul : F -> F -> F;
  fdiv : F -> F -> F;
  of_int : Z -> F
}.

#[export] Instance float64_arith : Arith float := {|
  fmul := PrimFloat.mul;
  fdiv := PrimFloat.div;
  of_int := float64_of_int
|}.

#[export] Instance exact_arith : Arith Q := {|
  fmul := Qmult;
  fdiv := Qdiv;
  of_int := inject_Z
|}.

(** ** The Kubernetes objects the engine reads

    [resource.Quantity] belongs to the Kubernetes API machinery; the
    engine uses it through the operations below only. *)

Module corev1.

Class QuantityOps (Qty : Type) := {
  (** the zero value of the Go type, also what a map yields for a
      missing key *)
  q_zero : Qty;
  q_Add : Qty -> Qty -> Qty;
  q_IsZero : Qty -> bool;
  (** [Value()] *)
  q_Value : Qty -> Z;
  q_AsApproximateFloat64 : Qty -> float;
  q_String : Qty -> string
}.

Definition ResourceCPU : string := "cpu".
Definition ResourceMemory : string := "memory".
Definition ResourceGPU : string := "nvidia.com/gpu".
Definition PodRunning : string := "Running".

(** [q.Value()] as the [int64] it is. *)
Definition Value {Qty} `{QuantityOps Qty} (q : Qty) : Z := wrap64 (q_Value q).

(** [m[k]] without the [ok] result. *)
Definition index {Qty} `{QuantityOps Qty} (m : gmap string Qty) (k : string) : Qty :=
  default q_zero (m !! k).

Record ResourceRequirements (Qty : Type) := {
  Limits : gmap string Qty;
  Requests : gmap string Qty
}.
Arguments Limits {Qty} _.
Arguments Requests {Qty} _.

Record Container (Qty : Type) := { Resources : ResourceRequirements Qty }.
Arguments Resources {Qty} _.

Module Pod.
Record t (Qty : Type) := {
  Name : string;
  Namespace : string;
  NodeName : string;
  Containers : list (Container Qty);
  Phase : string
}.
Arguments Name {Qty} _.
Arguments Namespace {Qty} _.
Arguments NodeName {Qty} _.
Arguments Containers {Qty} _.
Arguments Phase {Qty} _.

Definition isRunning {Qty} (pod : t Qty) : bool :=
  bool_decide (Phase pod = PodRunning).
End Pod.

Module Node.
Record t (Qty : Type) := {
  Name : string;
  Labels : gmap string string;
  Capacity : gmap string Qty;
  Allocatable : gmap string Qty
}.
Arguments Name {Qty} _.
Arguments Labels {Qty} _.
Arguments Capacity {Qty} _.
Arguments Allocatable {Qty} _.
End Node.

End corev1.
Import corev1.

(** ** Go's [sort.Slice]

    The standard library documents it as sorting by [less], not
    guaranteed stable; [less] has to be a strict weak ordering. *)

Module sort.

Class Slice := slice : forall A : Type, (A -> A -> bool) -> list A -> list A.

Definition strict_weak {A} (less : A -> A -> bool) (l : list A) : Prop :=
  (forall x, x ∈ l -> less x x = false) /\
  (forall x y z, x ∈ l -> y ∈ l -> z ∈ l ->
     less x y = true -> less y z = true -> less x z = true) /\
  (forall x y z, x ∈ l -> y ∈ l -> z ∈ l ->
     less x y = false -> less y z = false -> less x z = false).

Definition notLess {A} (less : A -> A -> bool) (a b : A) : Prop := less a b = false.

(** No element is [less] than one placed before it. *)
Definition sorted_by {A} (less : A -> A -> bool) (l : list A) : Prop :=
  forall i j x y, (i < j)%nat -> l !! i = Some x -> l !! j = Some y ->
    less y x = false.

Class SliceSpec (S : Slice) : Prop := {
  slice_perm : forall A (less : A -> A -> bool) l, slice A less l ≡ₚ l;
  slice_sorted : forall A (less : A -> A -> bool) l,
    strict_weak less l -> sorted_by less (slice A less l)
}.

(** The insertion sort [sort.Slice] runs on a short slice: each element
    moves left while it is [less] than its left neighbour.  [sink x rp]
    works on the already sorted prefix in reverse. *)
Fixpoint sink {A} (less : A -> A -> bool) (x : A) (rp : list A) : list A :=
  match rp with
  | [] => [x]
  | y :: rp' => if less x y then y :: sink less x rp' else x :: y :: rp'
  end.

Definition insertionSort {A} (less : A -> A -> bool) (l : list A) : list A :=
  reverse (fold_left (fun rp x => sink less x rp) l []).


Definition goInsertion : Slice := fun A => @insertionSort A.

End sort.

(** ** Package cost: pricing.go and calculator.go *)

Module cost.

Section PricingModel.
Context {F : Type} `{Arith F}.

Record Pricing := {
  CPUHourlyCost : F;
  MemoryGBHourly : F;
  GPUHourlyCost : F;
  StorageGBMonthly : F
}.

Definition hoursPerMonth : F := of_int 730.

(** The constant [1024 * 1024 * 1024] as a [float64]. *)
Definition bytesPerGB : F := of_int (1024 * 1024 * 1024).

Definition CalculateCPUCost (p : Pricing) (cores : F) : F :=
  fmul (fmul cores (CPUHourlyCost p)) hoursPerMonth.

Definition CalculateMemoryCost (p : Pricing) (bytes : Z) : F :=
  let gb := fdiv (of_int bytes) bytesPerGB in
  fmul (fmul gb (MemoryGBHourly p)) hoursPerMonth.

Definition CalculateGPUCost (p : Pricing) (count : Z) : F :=
  fmul (fmul (of_int count) (GPUHourlyCost p)) hoursPerMonth.

Definition CalculateStorageCost (p : Pricing) (bytes : Z) : F :=
  let gb := fdiv (of_int bytes) bytesPerGB in
  fmul gb (StorageGBMonthly p).

End PricingModel.

Arguments Pricing F : clear implicits.

Definition DefaultPricing : Pricing float := {|
  CPUHourlyCost := 0.024%float;
  MemoryGBHourly := 0.003%float;
  GPUHourlyCost := 0.90%float;
  StorageGBMonthly := 0.10%float
|}.

Definition GCPPricing : Pricing float := {|
  CPUHourlyCost := 0.022%float;
  MemoryGBHourly := 0.003%float;
  GPUHourlyCost := 0.85%float;
  StorageGBMonthly := 0.10%float
|}.

Definition AzurePricing : Pricing float := {|
  CPUHourlyCost := 0.025%float;
  MemoryGBHourly := 0.003%float;
  GPUHourlyCost := 0.95%float;
  StorageGBMonthly := 0.12%float
|}.

Record PodCost := {
  Name : string;
  Namespace : string;
  Node : string;
  CPUCost : float;
  MemoryCost : float;
  GPUCost : float;
  GPUCount : Z;
  TotalCost : float;
  CPURequest : string;
  MemRequest : string;
  CPULimit : string;
  MemLimit : string
}.

Record Calculator := { pricing : Pricing float }.

Definition NewCalculator : Calculator := {| pricing := DefaultPricing |}.

Definition NewCalculatorWithPricing (p : Pricing float) : Calculator :=
  {| pricing := p |}.

Section Calc.
Context {Qty : Type} `{QuantityOps Qty}.

(** The variables the container loop of [calculatePodCost] updates. *)
Record sums := {
  cpuRequest : Qty;
  memRequest : Qty;
  cpuLimit : Qty;
  memLimit : Qty;
  gpuCount : Z
}.

Definition sums0 : sums := {|
  cpuRequest := q_zero; memRequest := q_zero;
  cpuLimit := q_zero; memLimit := q_zero;
  gpuCount := 0
|}.

(** [if v, ok := m[k]; ok { acc.Add(v) }] *)
Definition addIfPresent (acc : Qty) (m : gmap string Qty) (k : string) : Qty :=
  match m !! k with
  | Some v => q_Add acc v
  | None => acc
  end.

(** [if gpu, ok := m["nvidia.com/gpu"]; ok { n += int(gpu.Value()) }] *)
Definition addGPU (n : Z) (m : gmap string Qty) : Z :=
  match m !! ResourceGPU with
  | Some gpu => wrap64 (n + Value gpu)
  | None => n
  end.

(** One iteration of the container loop. *)
Definition sumContainer (s : sums) (c : Container Qty) : sums :=
  let req := Requests (Resources c) in
  let lim := Limits (Resources c) in
  {| cpuRequest := addIfPresent (cpuRequest s) req ResourceCPU;
     memRequest := addIfPresent (memRequest s) req ResourceMemory;
     cpuLimit := addIfPresent (cpuLimit s) lim ResourceCPU;
     memLimit := addIfPresent (memLimit s) lim ResourceMemory;
     gpuCount := addGPU (addGPU (gpuCount s) req) lim |}.

Definition sumContainers (pod : Pod.t Qty) : sums :=
  fold_left sumContainer (Pod.Containers pod) sums0.

(** Requests, or limits when the requests are zero. *)
Definition cpuToUse (s : sums) : Qty :=
  if q_IsZero (cpuRequest s) then cpuLimit s else cpuRequest s.

Definition memToUse (s : sums) : Qty :=
  if q_IsZero (memRequest s) then memLimit s else memRequest s.

(** The billable quantities in the words of the specification: for CPU
    and for memory, the sum of the requests over the containers, or the
    sum of the limits when that sum is zero; for GPUs, the requests and
    the limits of all containers added up. *)
Definition requestsOf (pod : Pod.t Qty) : list (gmap string Qty) :=
  (fun c => Requests (Resources c)) <$> Pod.Containers pod.

Definition limitsOf (pod : Pod.t Qty) : list (gmap string Qty) :=
  (fun c => Limits (Resources c)) <$> Pod.Containers pod.

Definition sumOf (key : string) (maps : list (gmap string Qty)) : Qty :=
  foldl q_Add q_zero (omap (fun m => m !! key) maps).

Definition billable (key : string) (pod : Pod.t Qty) : Qty :=
  if q_IsZero (sumOf key (requestsOf pod)) then sumOf key (limitsOf pod)
  else sumOf key (requestsOf pod).

Definition unitsOf (maps : list (gmap string Qty)) : Z :=
  foldr Z.add 0 (Value <$> omap (fun m => m !! ResourceGPU) maps).

Definition gpuUnits (pod : Pod.t Qty) : Z :=
  wrap64 (unitsOf (requestsOf pod) + unitsOf (limitsOf pod)).

Definition calculatePodCost (c : Calculator) (pod : Pod.t Qty) : PodCost :=
  let s := sumContainers pod in
  let cpuCost := CalculateCPUCost (pricing c) (q_AsApproximateFloat64 (cpuToUse s)) in
  let memCost := CalculateMemoryCost (pricing c) (Value (memToUse s)) in
  let gpuCost := CalculateGPUCost (pricing c) (gpuCount s) in
  {| Name := Pod.Name pod;
     Namespace := Pod.Namespace pod;
     Node := Pod.NodeName pod;
     CPUCost := cpuCost;
     MemoryCost := memCost;
     GPUCost := gpuCost;
     GPUCount := gpuCount s;
     TotalCost := PrimFloat.add (PrimFloat.add cpuCost memCost) gpuCost;
     CPURequest := q_String (cpuRequest s);
     MemRequest := q_String (memRequest s);
     CPULimit := q_String (cpuLimit s);
     MemLimit := q_String (memLimit s) |}.

(** The comparison handed to [sort.Slice]. *)
Definition byTotalCostDesc (a b : PodCost) : bool :=
  fgt (TotalCost a) (TotalCost b).

Definition CalculatePodCosts `{S : sort.Slice} (c : Calculator)
    (pods : list (Pod.t Qty)) (nodes : list (Node.t Qty)) : list PodCost :=
  let results := calculatePodCost c <$> filter (fun pod => Pod.isRunning pod = true) pods in
  sort.slice PodCost byTotalCostDesc results.

Definition CalculateNodeCost (c : Calculator) (node : Node.t Qty) : float :=
  let cpu := index (Node.Capacity node) ResourceCPU in
  let mem := index (Node.Capacity node) ResourceMemory in
  let cpuCost := CalculateCPUCost (pricing c) (q_AsApproximateFloat64 cpu) in
  let memCost := CalculateMemoryCost (pricing c) (Value mem) in
  let gpuCount :=
    match Node.Capacity node !! ResourceGPU with
    | Some gpu => Value gpu
    | None => 0
    end in
  let gpuCost := CalculateGPUCost (pricing c) gpuCount in
  PrimFloat.add (PrimFloat.add cpuCost memCost) gpuCost.

End Calc.

End cost.

(** ** Package gpu: analyzer.go *)

Module gpu.

Module NodeGPU.
Record t := {
  NodeName : string;
  TotalGPUs : Z;
  AllocatedGPUs : Z;
  AvailableGPUs : Z;
  GPUType : string
}.
End NodeGPU.

Module PodGPU.
Record t := {
  PodName : string;
  Namespace : string;
  Node : string;
  GPUCount : Z
}.
End PodGPU.

Record Analysis := {
  Nodes : list NodeGPU.t;
  Pods : list PodGPU.t;
  TotalGPUs : Z;
  AllocatedGPUs : Z;
  AvailableGPUs : Z;
  UtilizationPct : float;
  Recommendations : list string
}.

Section Analyzer.
Context {Qty : Type} `{QuantityOps Qty}.

Definition analyzeNode (node : Node.t Qty) : NodeGPU.t :=
  let total :=
    match Node.Capacity node !! ResourceGPU with
    | Some gpu => Value gpu
    | None => 0
    end in
  let '(available, allocated) :=
    match Node.Allocatable node !! ResourceGPU with
    | Some gpu =>
        let available := Value gpu in
        (available, wrap64 (total - available))
    | None => (0, 0)
    end in
  let gpuType :=
    match Node.Labels node !! "nvidia.com/gpu.product" with
    | Some gpuType => gpuType
    | None =>
        match Node.Labels node !! "accelerator" with
        | Some gpuType => gpuType
        | None => "Unknown"
        end
    end in
  {| NodeGPU.NodeName := Node.Name node;
     NodeGPU.TotalGPUs := total;
     NodeGPU.AllocatedGPUs := allocated;
     NodeGPU.AvailableGPUs := available;
     NodeGPU.GPUType := gpuType |}.

(** One iteration of the container loop of [analyzePod]. *)
Definition countContainer (n : Z) (c : Container Qty) : Z :=
  let n :=
    match Requests (Resources c) !! ResourceGPU with
    | Some gpu => wrap64 (n + Value gpu)
    | None => n
    end in
  match Limits (Resources c) !! ResourceGPU with
  | Some gpu => wrap64 (n + Value gpu)
  | None => n
  end.

Definition analyzePod (pod : Pod.t Qty) : PodGPU.t :=
  {| PodGPU.PodName := Pod.Name pod;
     PodGPU.Namespace := Pod.Namespace pod;
     PodGPU.Node := Pod.NodeName pod;
     PodGPU.GPUCount := fold_left countContainer (Pod.Containers pod) 0 |}.

Definition count {A} (f : A -> bool) (l : list A) : Z :=
  Z.of_nat (length (List.filter f l)).

Definition generateRecommendations (a : Analysis) : list string :=
  (if (0 <? TotalGPUs a) && PrimFloat.ltb (UtilizationPct a) 50
   then ["GPU utilization is below 50%. Consider scaling down GPU nodes or consolidating workloads."]
   else [])
  ++ (if fgt (UtilizationPct a) 85
      then ["GPU utilization is above 85%. Consider adding more GPU nodes to prevent scheduling issues."]
      else [])
  ++ (let fragmentedNodes :=
        count (fun node => (0 <? NodeGPU.AllocatedGPUs node) && (0 <? NodeGPU.AvailableGPUs node))
              (Nodes a) in
      if Z.of_nat (length (Nodes a)) / 2 <? fragmentedNodes
      then ["Many nodes have partially allocated GPUs. Consider using node affinity to pack GPU workloads efficiently."]
      else [])
  ++ (if TotalGPUs a =? 0
      then ["No GPU resources detected. If you have ML/AI workloads, consider adding GPU nodes for better performance."]
      else [])
  ++ (let singleGPUPods := count (fun pod => PodGPU.GPUCount pod =? 1) (Pods a) in
      if 2 <? singleGPUPods
      then ["Multiple pods requesting single GPUs. Consider MIG (Multi-Instance GPU) or time-slicing for better utilization."]
      else []).

(** The node loop of [Analyze]: the kept nodes and the two running
    totals. *)
Definition addNode (st : list NodeGPU.t * Z * Z) (node : Node.t Qty)
    : list NodeGPU.t * Z * Z :=
  let '(nodes, total, allocated) := st in
  let nodeGPU := analyzeNode node in
  if 0 <? NodeGPU.TotalGPUs nodeGPU
  then (nodes ++ [nodeGPU],
        wrap64 (total + NodeGPU.TotalGPUs nodeGPU),
        wrap64 (allocated + NodeGPU.AllocatedGPUs nodeGPU))
  else st.

Definition addPod (pods : list PodGPU.t) (pod : Pod.t Qty) : list PodGPU.t :=
  let podGPU := analyzePod pod in
  if 0 <? PodGPU.GPUCount podGPU then pods ++ [podGPU] else pods.

(** [UtilizationPct] keeps the zero value unless the guard holds. *)
Definition utilization (total allocated : Z) : float :=
  if 0 <? total
  then PrimFloat.mul
         (PrimFloat.div (float64_of_int allocated) (float64_of_int total)) 100
  else 0%float.

Definition Analyze (nodes : list (Node.t Qty)) (pods : list (Pod.t Qty)) : Analysis :=
  let '(ns, total, allocated) := fold_left addNode nodes ([], 0, 0) in
  let ps := fold_left addPod pods [] in
  let a :=
    {| Nodes := ns; Pods := ps;
       TotalGPUs := total; AllocatedGPUs := allocated;
       AvailableGPUs := wrap64 (total - allocated);
       UtilizationPct := utilization total allocated;
       Recommendations := [] |} in
  {| Nodes := Nodes a; Pods := Pods a;
     TotalGPUs := TotalGPUs a; AllocatedGPUs := AllocatedGPUs a;
     AvailableGPUs := AvailableGPUs a;
     UtilizationPct := UtilizationPct a;
     Recommendations := generateRecommendations a |}.

End Analyzer.

End gpu.

(** ** Package optimize: recommendations.go *)

Module optimize.
Import cost.

Record Recommendation := {
  Title : string;
  Description : string;
  Savings : float;
  Priority : string;
  Category : string
}.

Record Optimizer := { pricing : Pricing float }.

Definition NewOptimizer : Optimizer := {| pricing := DefaultPricing |}.

(** [sortRecommendationsBySavings]: the inner loop runs [n] comparisons
    from the left, swapping neighbours that are out of order. *)
Fixpoint bubblePass (n : nat) (l : list Recommendation) : list Recommendation :=
  match n, l with
  | S n', a :: b :: t =>
      if PrimFloat.ltb (Savings a) (Savings b)
      then b :: bubblePass n' (a :: t)
      else a :: bubblePass n' (b :: t)
  | _, _ => l
  end.

Definition sortRecommendationsBySavings (l : list Recommendation) : list Recommendation :=
  fold_left (fun l i => bubblePass (length l - i - 1) l) (seq 0 (length l - 1)) l.

Section Heuristics.
Context {Qty : Type} `{QuantityOps Qty}.

Definition rightsizing (pod : Pod.t Qty) (pc : PodCost) : Recommendation :=
  {| Title := "Rightsize over-provisioned pod: " +:+ Pod.Name pod;
     Description := "This pod requests significant resources. Consider rightsizing based on actual usage metrics.";
     Savings := PrimFloat.mul (TotalCost pc) 0.3;
     Priority := "High";
     Category := "Rightsizing" |}.

(** The test [findOverProvisionedPods] makes on one container. *)
Definition overProvisioned (c : Container Qty) : bool :=
  let cpuReq := index (Requests (Resources c)) ResourceCPU in
  let memReq := index (Requests (Resources c)) ResourceMemory in
  if q_IsZero cpuReq || q_IsZero memReq then false
  else fgt (q_AsApproximateFloat64 cpuReq) 4.0
       || (16 * 1024 * 1024 * 1024 <? Value memReq).

(** What the pod at index [i] adds to the result. *)
Definition overProvisionedAt (costs : list PodCost) (i : nat) (pod : Pod.t Qty)
    : list Recommendation :=
  if Pod.isRunning pod then
    Pod.Containers pod ≫= (fun c =>
      if overProvisioned c then
        match costs !! i with
        | Some pc => [rightsizing pod pc]
        | None => []
        end
      else [])
  else [].

Definition findOverProvisionedPods (pods : list (Pod.t Qty)) (costs : list PodCost)
    : list Recommendation :=
  mjoin (imap (overProvisionedAt costs) pods).

Definition hasRequests (pod : Pod.t Qty) : bool :=
  existsb (fun c => bool_decide (0 < size (Requests (Resources c)))%nat)
          (Pod.Containers pod).

Definition findPodsWithoutRequests (pods : list (Pod.t Qty)) : list Recommendation :=
  let count :=
    length (List.filter (fun pod => Pod.isRunning pod && negb (hasRequests pod)) pods) in
  if bool_decide (0 < count)%nat then
    [{| Title := "Add resource requests to pods without them";
        Description := pretty count +:+ " pods don't have resource requests. This can lead to poor scheduling and cost visibility.";
        Savings := 0;
        Priority := "Medium";
        Category := "Best Practice" |}]
  else [].

Definition estimateNodeCost (o : Optimizer) (node : Node.t Qty) : float :=
  let cpu := index (Node.Capacity node) ResourceCPU in
  let mem := index (Node.Capacity node) ResourceMemory in
  let cpuCost := CalculateCPUCost (pricing o) (q_AsApproximateFloat64 cpu) in
  let memCost := CalculateMemoryCost (pricing o) (Value mem) in
  PrimFloat.add cpuCost memCost.

Definition unused (o : Optimizer) (node : Node.t Qty) : Recommendation :=
  {| Title := "Consider downsizing or removing underutilized node: " +:+ Node.Name node;
     Description := "This node appears to have low resource allocation. Review if it can be consolidated or removed.";
     Savings := PrimFloat.mul (estimateNodeCost o node) 0.5;
     Priority := "Medium";
     Category := "Unused" |}.

(** Allocatable CPU above 80% of the capacity CPU. *)
Definition underutilized (node : Node.t Qty) : bool :=
  let cpuAllocatable := index (Node.Allocatable node) ResourceCPU in
  let cpuCapacity := index (Node.Capacity node) ResourceCPU in
  fgt (q_AsApproximateFloat64 cpuAllocatable)
      (PrimFloat.mul (q_AsApproximateFloat64 cpuCapacity) 0.8).

Definition findUnusedResources (o : Optimizer) (nodes : list (Node.t Qty))
    : list Recommendation :=
  nodes ≫= (fun node => if underutilized node then [unused o node] else []).

(** The GPU count [findExpensiveGPUUsage] takes: requests only. *)
Definition requestedGPUs (pod : Pod.t Qty) : Z :=
  fold_left (fun n c =>
    match Requests (Resources c) !! ResourceGPU with
    | Some gpu => wrap64 (n + Value gpu)
    | None => n
    end) (Pod.Containers pod) 0.

Definition gpuReview (pod : Pod.t Qty) (pc : PodCost) : Recommendation :=
  {| Title := "Review GPU usage for pod: " +:+ Pod.Name pod;
     Description := "This pod uses GPUs which account for most of its cost. Ensure GPU is being utilized efficiently or consider spot instances.";
     Savings := PrimFloat.mul (GPUCost pc) 0.5;
     Priority := "High";
     Category := "GPU" |}.

Definition expensiveGPUAt (costs : list PodCost) (i : nat) (pod : Pod.t Qty)
    : list Recommendation :=
  if Pod.isRunning pod then
    if 0 <? requestedGPUs pod then
      match costs !! i with
      | Some pc =>
          if fgt (GPUCost pc) (PrimFloat.mul (TotalCost pc) 0.7)
          then [gpuReview pod pc] else []
      | None => []
      end
    else []
  else [].

Definition findExpensiveGPUUsage (pods : list (Pod.t Qty)) (costs : list PodCost)
    : list Recommendation :=
  mjoin (imap (expensiveGPUAt costs) pods).

Definition Analyze (o : Optimizer) (pods : list (Pod.t Qty)) (nodes : list (Node.t Qty))
    (costs : list PodCost) : list Recommendation :=
  sortRecommendationsBySavings
    (findOverProvisionedPods pods costs
     ++ findPodsWithoutRequests pods
     ++ findUnusedResources o nodes
     ++ findExpensiveGPUUsage pods costs).

(** [runOptimize] of cmd/optimize.go, once the pods and nodes are
    fetched. *)
Definition runOptimize `{S : sort.Slice} (pods : list (Pod.t Qty)) (nodes : list (Node.t Qty))
    : list Recommendation :=
  let costs := CalculatePodCosts NewCalculator pods nodes in
  Analyze NewOptimizer pods nodes costs.

End Heuristics.

End optimize.

(** The sum of a list of integers, to state totals with. *)
Definition sumZ (l : list Z) : Z := foldr Z.add 0 l.

(** ** Package cmd: what the commands compute between fetching and
    printing *)

Module cmd.
Import cost.

(** root.go, [getNamespace], with the two flags it reads. *)
Definition getNamespace (allNamespaces : bool) (namespace : string) : string :=
  if allNamespaces then ""
  else if bool_decide (namespace <> "") then namespace
  else "default".

(** analyze.go, [runAnalyze]:
    [if topN > 0 && len(results) > topN { results = results[:topN] }] *)
Definition applyTop (topN : Z) (results : list PodCost) : list PodCost :=
  if (0 <? topN) && (topN <? Z.of_nat (length results))
  then take (Z.to_nat topN) results
  else results.

Definition runAnalyze {Qty : Type} `{QuantityOps Qty} `{S : sort.Slice} (topN : Z)
    (pods : list (Pod.t Qty)) (nodes : list (Node.t Qty)) : list PodCost :=
  applyTop topN (CalculatePodCosts NewCalculator pods nodes).

(** analyze.go, [printSummary]: the four running totals and the numbers
    handed to the formatter. *)
Record Totals := {
  totalCost : float;
  totalCPU : float;
  totalMemory : float;
  totalGPU : Z
}.

Definition addResult (t : Totals) (r : PodCost) : Totals :=
  {| totalCost := PrimFloat.add (totalCost t) (TotalCost r);
     totalCPU := PrimFloat.add (totalCPU t) (CPUCost r);
     totalMemory := PrimFloat.add (totalMemory t) (MemoryCost r);
     totalGPU := wrap64 (totalGPU t + GPUCount r) |}.

Definition sumResults (results : list PodCost) : Totals :=
  fold_left addResult results
    {| totalCost := 0; totalCPU := 0; totalMemory := 0; totalGPU := 0 |}.

Record Summary := {
  monthlyCost : float;
  pods : Z;
  (** printed only when above 0 *)
  gpus : option Z;
  cpuCost : float;
  cpuPct : float;
  memoryCost : float;
  memoryPct : float
}.

Definition printSummary (results : list PodCost) : Summary :=
  let t := sumResults results in
  {| monthlyCost := totalCost t;
     pods := Z.of_nat (length results);
     gpus := if 0 <? totalGPU t then Some (totalGPU t) else None;
     cpuCost := totalCPU t;
     cpuPct := PrimFloat.mul (PrimFloat.div (totalCPU t) (totalCost t)) 100;
     memoryCost := totalMemory t;
     memoryPct := PrimFloat.mul (PrimFloat.div (totalMemory t) (totalCost t)) 100 |}.

(** optimize.go, [calculateSavingsPercentage]. *)
Definition calculateSavingsPercentage (costs : list PodCost) (savings : float) : float :=
  let totalCost := fold_left (fun t c => PrimFloat.add t (TotalCost c)) costs 0%float in
  if feq totalCost 0 then 0%float
  else PrimFloat.mul (PrimFloat.div savings totalCost) 100.

End cmd.

(** ** Package visualize: the rows and blocks the printers produce

    The rendering of a table and the formatting of a number belong to
    libraries; a printer is modelled by the blocks it emits, in order, with
    the values it hands over. *)

Module visualize.
Import gpu.

(** [PrintGPUTable], the utilization of one row. *)
Definition nodeUtil (node : NodeGPU.t) : float :=
  if 0 <? NodeGPU.TotalGPUs node
  then PrimFloat.mul
         (PrimFloat.div (float64_of_int (NodeGPU.AllocatedGPUs node))
                        (float64_of_int (NodeGPU.TotalGPUs node))) 100
  else 0%float.

Inductive block :=
  | NoGPUNodes
  | NodeTable (rows : list (NodeGPU.t * float))
  | NoGPUPods
  | PodTable (rows : list PodGPU.t)
  | GPUSummary (total allocated available : Z) (utilization : float).

Definition PrintGPUTable (a : Analysis) : list block :=
  if bool_decide (length (Nodes a) = 0%nat) then [NoGPUNodes]
  else
    NodeTable ((fun node => (node, nodeUtil node)) <$> Nodes a)
    :: (if bool_decide (length (Pods a) = 0%nat) then [NoGPUPods]
        else [PodTable (Pods a);
              GPUSummary (TotalGPUs a) (AllocatedGPUs a) (AvailableGPUs a)
                         (UtilizationPct a)]).

(** A [corev1.NodeCondition], as [PrintNodeTable] reads it. *)
Record NodeCondition := {
  ConditionType : string;
  ConditionStatus : string
}.

Definition NodeReady : string := "Ready".
Definition ConditionTrue : string := "True".

(** [PrintNodeTable], the status column. *)
Definition nodeStatus (conditions : list NodeCondition) : string :=
  fold_left (fun status condition =>
    if bool_decide (ConditionType condition = NodeReady)
       && negb (bool_decide (ConditionStatus condition = ConditionTrue))
    then "Not Ready" else status) conditions "Ready".

End visualize.

(** The messages of [generateRecommendations], by name. *)

Module advice.

Definition lowUtilization : string :=
  "GPU utilization is below 50%. Consider scaling down GPU nodes or consolidating workloads.".
Definition highUtilization : string :=
  "GPU utilization is above 85%. Consider adding more GPU nodes to prevent scheduling issues.".
Definition fragmented : string :=
  "Many nodes have partially allocated GPUs. Consider using node affinity to pack GPU workloads efficiently.".
Definition noGPUs : string :=
  "No GPU resources detected. If you have ML/AI workloads, consider adding GPU nodes for better performance.".
Definition singleGPUPods : string :=
  "Multiple pods requesting single GPUs. Consider MIG (Multi-Instance GPU) or time-slicing for better utilization.".

End advice.

(** ** A quantity to run the engine on

    Thousandths of a unit, the granularity Kubernetes keeps for CPU:
    [5000] is five cores, [500] is [500m]. *)

Module milli.

Definition value (m : Z) : Z := - ((- m) / 1000).

Definition asApproximateFloat64 (m : Z) : float :=
  if m mod 1000 =? 0 then float64_of_int (m / 1000)
  else PrimFloat.mul (float64_of_int m) 0.001.

Definition toString (m : Z) : string :=
  if m mod 1000 =? 0 then pretty (m / 1000) else pretty m +:+ "m".

#[global] Instance quantity : QuantityOps Z := {|
  q_zero := 0;
  q_Add := Z.add;
  q_IsZero := Z.eqb 0;
  q_Value := value;
  q_AsApproximateFloat64 := asApproximateFloat64;
  q_String := toString
|}.

Definition cores (n : Z) : Z := n * 1000.
Definition bytes (n : Z) : Z := n * 1000.
Definition units (n : Z) : Z := n * 1000.

End milli.

(** ** Sample cluster objects *)

Module sample.
Import milli.

Definition container (requests limits : gmap string Z) : Container Z :=
  {| Resources := {| Limits := limits; Requests := requests |} |}.

Definition GiB : Z := 1024 * 1024 * 1024.

(** A pending pod that requests one core. *)
Definition pendingPod : Pod.t Z := {|
  Pod.Name := "queued"; Pod.Namespace := "default"; Pod.NodeName := "";
  Pod.Containers := [container {[ ResourceCPU := cores 1 ]} ∅];
  Pod.Phase := "Pending"
|}.

(** A running pod that requests five cores and one GiB. *)
Definition bigPod : Pod.t Z := {|
  Pod.Name := "big"; Pod.Namespace := "default"; Pod.NodeName := "node-a";
  Pod.Containers :=
    [container {[ ResourceCPU := cores 5; ResourceMemory := bytes GiB ]} ∅];
  Pod.Phase := PodRunning
|}.

(** A running pod that requests half a core and 256 MiB. *)
Definition webPod : Pod.t Z := {|
  Pod.Name := "web"; Pod.Namespace := "default"; Pod.NodeName := "node-a";
  Pod.Containers :=
    [container {[ ResourceCPU := 500; ResourceMemory := bytes (GiB / 4) ]} ∅];
  Pod.Phase := PodRunning
|}.


(** A running pod that names the accelerator in its limits only. *)
Definition gpuLimitPod : Pod.t Z := {|
  Pod.Name := "trainer"; Pod.Namespace := "ml"; Pod.NodeName := "node-g";
  Pod.Containers := [container ∅ {[ ResourceGPU := units 1 ]}];
  Pod.Phase := PodRunning
|}.

(** A node with four cores, 16 GiB and one GPU, nothing reserved. *)
Definition gpuNode : Node.t Z := {|
  Node.Name := "node-g";
  Node.Labels := ∅;
  Node.Capacity :=
    {[ ResourceCPU := cores 4; ResourceMemory := bytes (16 * GiB); ResourceGPU := units 1 ]};
  Node.Allocatable :=
    {[ ResourceCPU := cores 4; ResourceMemory := bytes (16 * GiB); ResourceGPU := units 1 ]}
|}.

(** A node with eight GPUs, two of them still allocatable. *)
Definition busyGPUNode : Node.t Z := {|
  Node.Name := "node-h";
  Node.Labels := {[ "accelerator" := "nvidia-tesla-t4" ]};
  Node.Capacity := {[ ResourceCPU := cores 32; ResourceGPU := units 8 ]};
  Node.Allocatable := {[ ResourceCPU := cores 31; ResourceGPU := units 2 ]}
|}.

(** A cost entry whose total is 100. *)
Definition hundred : cost.PodCost := {|
  cost.Name := "big"; cost.Namespace := "default"; cost.Node := "node-a";
  cost.CPUCost := 60; cost.MemoryCost := 40; cost.GPUCost := 0;
  cost.GPUCount := 0; cost.TotalCost := 100;
  cost.CPURequest := "5"; cost.MemRequest := "1Gi";
  cost.CPULimit := "0"; cost.MemLimit := "0"
|}.

End sample.

(** ** More sample objects *)

Module fixture.
Import milli.

(** A running pod that asks for one GPU, as request and as limit. *)
Definition gpuPod : Pod.t Z := {|
  Pod.Name := "infer"; Pod.Namespace := "ml"; Pod.NodeName := "node-h";
  Pod.Containers :=
    [sample.container {[ ResourceGPU := units 1 ]} {[ ResourceGPU := units 1 ]}];
  Pod.Phase := PodRunning
|}.

(** A running pod whose container declares nothing. *)
Definition idlePod : Pod.t Z := {|
  Pod.Name := "idle"; Pod.Namespace := "default"; Pod.NodeName := "node-a";
  Pod.Containers := [sample.container ∅ ∅];
  Pod.Phase := PodRunning
|}.

(** A node without GPUs, three of its four cores allocatable. *)
Definition plainNode : Node.t Z := {|
  Node.Name := "node-a";
  Node.Labels := ∅;
  Node.Capacity := {[ ResourceCPU := cores 4; ResourceMemory := bytes (8 * sample.GiB) ]};
  Node.Allocatable := {[ ResourceCPU := cores 3; ResourceMemory := bytes (7 * sample.GiB) ]}
|}.

(** A cost entry with a GPU cost of 80 in a total of 100. *)
Definition eighty : cost.PodCost := {|
  cost.Name := "infer"; cost.Namespace := "ml"; cost.Node := "node-h";
  cost.CPUCost := 15; cost.MemoryCost := 5; cost.GPUCost := 80;
  cost.GPUCount := 2; cost.TotalCost := 100;
  cost.CPURequest := "0"; cost.MemRequest := "0";
  cost.CPULimit := "0"; cost.MemLimit := "0"
|}.

End fixture.

(** ** The order of binary64 values

    A key that sends every value but NaN into a lexicographic order on
    integer triples; both zeros share one key. *)

Module FloatOrder.

Definition key (x : spec_float) : Z * Z * Z :=
  match x with
  | S754_zero _ => (0, 0, 0)
  | S754_infinity false => (2, 0, 0)
  | S754_infinity true => (-2, 0, 0)
  | S754_finite false m e => (1, e, Z.pos m)
  | S754_finite true m e => (-1, - e, Z.neg m)
  | S754_nan => (0, 0, 0)
  end.

Definition lexlt (a b : Z * Z * Z) : Prop :=
  a.1.1 < b.1.1 \/
  (a.1.1 = b.1.1 /\ (a.1.2 < b.1.2 \/ (a.1.2 = b.1.2 /\ a.2 < b.2))).

Definition isNaN (x : spec_float) : bool :=
  match x with S754_nan => true | _ => false end.

(** Finite and not zero, or infinite. *)
Definition nonzero_SF (x : spec_float) : Prop :=
  match x with
  | S754_finite _ _ _ | S754_infinity _ => True
  | S754_zero _ | S754_nan => False
  end.

End FloatOrder.

(** * Properties *)

(** ** [sort.Slice]: the two sorts meet the documented contract *)

Section SortFacts.
Context {A : Type} (less : A -> A -> bool).

Lemma sink_perm x rp : sort.sink less x rp ≡ₚ x :: rp.
Proof.
  induction rp as [|y rp IH]; simpl; [done|].
  destruct (less x y); [|done].
  rewrite IH. apply Permutation_swap.
Qed.

Lemma sink_fold_perm l acc :
  fold_left (fun rp x => sort.sink less x rp) l acc ≡ₚ l ++ acc.
Proof.
  revert acc. induction l as [|x l IH]; intros acc; simpl; [done|].
  rewrite IH, sink_perm. by rewrite Permutation_middle.
Qed.

Lemma insertionSort_perm l : sort.insertionSort less l ≡ₚ l.
Proof.
  unfold sort.insertionSort.
  rewrite reverse_Permutation, sink_fold_perm. by rewrite app_nil_r.
Qed.

Lemma sink_sorted (dom : list A) x rp :
  sort.strict_weak less dom -> x ∈ dom -> (forall y, y ∈ rp -> y ∈ dom) ->
  StronglySorted (sort.notLess less) rp -> StronglySorted (sort.notLess less) (sort.sink less x rp).
Proof.
  intros (Hirr & Htr & Hneg) Hx Hin Hs.
  induction Hs as [|y rp Hs IH Hall]; simpl.
  - repeat constructor.
  - assert (Hy : y ∈ dom) by (apply Hin; left).
    assert (Hrp : forall z, z ∈ rp -> z ∈ dom) by (intros z Hz; apply Hin; by right).
    destruct (less x y) eqn:Hxy.
    + constructor; [by apply IH|].
      rewrite (sink_perm x rp). constructor; [|done].
      unfold sort.notLess. destruct (less y x) eqn:Hyx; [|done].
      rewrite <- (Hirr x Hx). symmetry. by apply (Htr x y x).
    + constructor; [by constructor|].
      constructor; [done|].
      rewrite Forall_forall in Hall |- *. intros z Hz.
      apply (Hneg x y z); auto. by apply Hall.
Qed.

Lemma sink_fold_sorted (dom : list A) l acc :
  sort.strict_weak less dom -> (forall y, y ∈ l ++ acc -> y ∈ dom) ->
  StronglySorted (sort.notLess less) acc ->
  StronglySorted (sort.notLess less) (fold_left (fun rp x => sort.sink less x rp) l acc).
Proof.
  intros Hsw. revert acc. induction l as [|x l IH]; intros acc Hin Hs; simpl; [done|].
  apply IH.
  - intros y Hy. apply Hin. simpl. rewrite Permutation_middle.
    by rewrite sink_perm in Hy.
  - apply (sink_sorted dom); auto.
    + apply Hin. set_solver.
    + intros y Hy. apply Hin. set_solver.
Qed.

Lemma StronglySorted_reverse_sorted_by rp :
  StronglySorted (sort.notLess less) rp -> sort.sorted_by less (reverse rp).
Proof.
  intros Hs i j x y Hij Hi Hj.
  assert (Hlj : (j < length rp)%nat).
  { apply lookup_lt_Some in Hj. by rewrite length_reverse in Hj. }
  rewrite reverse_lookup in Hi by lia.
  rewrite reverse_lookup in Hj by lia.
  remember (length rp - S j)%nat as a.
  remember (length rp - S i)%nat as b.
  assert (Hab : (a < b)%nat) by lia.
  clear -Hs Hab Hi Hj. revert a b Hab Hi Hj.
  induction Hs as [|z rp Hs IH Hall]; intros a b Hab Hb Ha; [done|].
  destruct b as [|b]; [lia|]. simpl in Hb.
  destruct a as [|a]; simpl in Ha.
  - injection Ha as ->. rewrite Forall_forall in Hall.
    apply Hall. by eapply list_elem_of_lookup_2.
  - apply (IH a b); [lia|done..].
Qed.

Lemma insertionSort_sorted l :
  sort.strict_weak less l -> sort.sorted_by less (sort.insertionSort less l).
Proof.
  intros Hsw. apply StronglySorted_reverse_sorted_by.
  apply (sink_fold_sorted l); [done| |constructor].
  intros y. by rewrite app_nil_r.
Qed.

End SortFacts.


Lemma goInsertion_spec : sort.SliceSpec sort.goInsertion.
Proof.
  split; intros A less l.
  - apply insertionSort_perm.
  - apply insertionSort_sorted.
Qed.


(** ** Facts on binary64 *)

Section FloatFacts.
Import FloatOrder.

Lemma SFltb_key a b :
  isNaN a = false -> isNaN b = false ->
  (SFltb a b = true <-> lexlt (key a) (key b)).
Proof.
  unfold SFltb, lexlt.
  destruct a as [sa|sa| |sa ma ea], b as [sb|sb| |sb mb eb]; try discriminate;
    intros _ _; try destruct sa; try destruct sb; simpl;
    try (split; [discriminate | lia]); try (split; [lia | done]).
  all: pose proof (Pos.compare_spec ma mb) as Hc; unfold Pos.compare in Hc.
  all: destruct (Z.compare_spec ea eb); simpl; [destruct Hc; simpl|..];
    split; try discriminate; try done; lia.
Qed.

Lemma ltb_key x y :
  not_nan x = true -> not_nan y = true ->
  (PrimFloat.ltb x y = true <-> lexlt (key (Prim2SF x)) (key (Prim2SF y))).
Proof.
  unfold not_nan. intros Hx Hy. rewrite FloatAxioms.ltb_spec.
  apply SFltb_key; [by destruct (Prim2SF x) | by destruct (Prim2SF y)].
Qed.

Lemma SFleb_key a b :
  isNaN a = false -> isNaN b = false ->
  (SFleb a b = true <-> ~ lexlt (key b) (key a)).
Proof.
  unfold SFleb, lexlt.
  destruct a as [sa|sa| |sa ma ea], b as [sb|sb| |sb mb eb]; try discriminate;
    intros _ _; try destruct sa; try destruct sb; simpl;
    try (split; [discriminate | lia]); try (split; [lia | done]).
  all: pose proof (Pos.compare_spec ma mb) as Hc; unfold Pos.compare in Hc.
  all: destruct (Z.compare_spec ea eb); simpl; [destruct Hc; simpl|..];
    split; try discriminate; try done; lia.
Qed.

Lemma leb_key x y :
  not_nan x = true -> not_nan y = true ->
  (PrimFloat.leb x y = true <-> ~ lexlt (key (Prim2SF y)) (key (Prim2SF x))).
Proof.
  unfold not_nan. intros Hx Hy. rewrite FloatAxioms.leb_spec.
  apply SFleb_key; [by destruct (Prim2SF x) | by destruct (Prim2SF y)].
Qed.

Lemma ltb_irrefl x : PrimFloat.ltb x x = false.
Proof.
  rewrite FloatAxioms.ltb_spec. unfold SFltb.
  destruct (Prim2SF x) as [s|s| |s m e]; try destruct s; simpl; try done.
  - by rewrite Z.compare_refl, Pos.compare_cont_refl.
  - by rewrite Z.compare_refl, Pos.compare_cont_refl.
Qed.

Lemma lexlt_trans a b c : lexlt a b -> lexlt b c -> lexlt a c.
Proof. unfold lexlt. lia. Qed.

Lemma lexlt_neg_trans a b c : ~ lexlt a b -> ~ lexlt b c -> ~ lexlt a c.
Proof. unfold lexlt. lia. Qed.

Lemma eqb_refl x : not_nan x = true -> PrimFloat.eqb x x = true.
Proof.
  unfold not_nan. rewrite FloatAxioms.eqb_spec. unfold SFeqb.
  destruct (Prim2SF x) as [s|s| |s m e]; try destruct s; simpl; try done.
  - by rewrite Z.compare_refl, Pos.compare_cont_refl.
  - by rewrite Z.compare_refl, Pos.compare_cont_refl.
Qed.

End FloatFacts.

(** ** The cost calculator *)

Section CalculatorFacts.
Import cost.
Context {Qty : Type} `{QuantityOps Qty}.

Lemma isRunning_true (pod : Pod.t Qty) :
  Pod.isRunning pod = true <-> Pod.Phase pod = PodRunning.
Proof. unfold Pod.isRunning. by rewrite bool_decide_eq_true. Qed.

Lemma CalculatePodCosts_perm `{S : sort.Slice} (HS : sort.SliceSpec S) c pods nodes :
  CalculatePodCosts c pods nodes
  ≡ₚ calculatePodCost c <$> filter (fun pod => Pod.isRunning pod = true) pods.
Proof. unfold CalculatePodCosts. apply sort.slice_perm. Qed.

Lemma CalculatePodCosts_elem `{S : sort.Slice} (HS : sort.SliceSpec S) c pods nodes pc :
  pc ∈ CalculatePodCosts c pods nodes <->
  exists pod, pod ∈ pods /\ Pod.Phase pod = PodRunning /\ pc = calculatePodCost c pod.
Proof.
  rewrite (CalculatePodCosts_perm HS), list_elem_of_fmap.
  split.
  - intros (pod & -> & Hin). apply list_elem_of_filter in Hin as [Hr Hin].
    exists pod. by rewrite <- isRunning_true.
  - intros (pod & Hin & Hr & ->). exists pod. split; [done|].
    apply list_elem_of_filter. by rewrite isRunning_true.
Qed.

Lemma gpuCount_fold cs s :
  gpuCount (fold_left sumContainer cs s)
  = fold_left gpu.countContainer cs (gpuCount s).
Proof.
  revert s. induction cs as [|c cs IH]; intros s; simpl; [done|].
  by rewrite IH.
Qed.

Lemma wrap64_add_l a b : wrap64 (wrap64 a + b) = wrap64 (a + b).
Proof.
  unfold wrap64. f_equal.
  replace ((a + 2 ^ 63) `mod` 2 ^ 64 - 2 ^ 63 + b + 2 ^ 63)
    with ((a + 2 ^ 63) `mod` 2 ^ 64 + b) by lia.
  rewrite Z.add_mod_idemp_l by lia. f_equal. lia.
Qed.

Lemma wrap64_idem a : wrap64 (wrap64 a) = wrap64 a.
Proof. pose proof (wrap64_add_l a 0) as H0. by rewrite !Z.add_0_r in H0. Qed.

Lemma addIfPresent_fold key (cs : list (Container Qty)) (proj : Container Qty -> gmap string Qty)
    (get : sums -> Qty) s :
  (forall s c, get (sumContainer s c) = addIfPresent (get s) (proj c) key) ->
  get (fold_left sumContainer cs s)
  = foldl q_Add (get s) (omap (fun m => m !! key) (proj <$> cs)).
Proof.
  intros Hstep. revert s. induction cs as [|c cs IH]; intros s; simpl; [done|].
  rewrite IH, Hstep. unfold addIfPresent. by destruct (proj c !! key).
Qed.

Lemma cpuToUse_billable (pod : Pod.t Qty) :
  cpuToUse (sumContainers pod) = billable ResourceCPU pod.
Proof.
  unfold cpuToUse, billable, sumOf, requestsOf, limitsOf, sumContainers.
  rewrite !(addIfPresent_fold ResourceCPU _ (fun c => Requests (Resources c)) cpuRequest sums0)
    by done.
  by rewrite (addIfPresent_fold ResourceCPU _ (fun c => Limits (Resources c)) cpuLimit sums0).
Qed.

Lemma memToUse_billable (pod : Pod.t Qty) :
  memToUse (sumContainers pod) = billable ResourceMemory pod.
Proof.
  unfold memToUse, billable, sumOf, requestsOf, limitsOf, sumContainers.
  rewrite !(addIfPresent_fold ResourceMemory _ (fun c => Requests (Resources c)) memRequest sums0)
    by done.
  by rewrite (addIfPresent_fold ResourceMemory _ (fun c => Limits (Resources c)) memLimit sums0).
Qed.

Lemma unitsOf_cons (m : gmap string Qty) ms :
  unitsOf (m :: ms)
  = match m !! ResourceGPU with
    | Some q => Value q + unitsOf ms
    | None => unitsOf ms
    end.
Proof. unfold unitsOf. simpl. by destruct (m !! ResourceGPU). Qed.

Lemma countContainer_fold (cs : list (Container Qty)) n :
  wrap64 (fold_left gpu.countContainer cs n)
  = wrap64 (n + (unitsOf ((fun c => Requests (Resources c)) <$> cs)
                 + unitsOf ((fun c => Limits (Resources c)) <$> cs))).
Proof.
  revert n. induction cs as [|c cs IH]; intros n.
  - simpl. f_equal. unfold unitsOf. simpl. lia.
  - simpl fold_left. rewrite IH, !fmap_cons, !unitsOf_cons.
    generalize (unitsOf ((fun c => Requests (Resources c)) <$> cs)).
    generalize (unitsOf ((fun c => Limits (Resources c)) <$> cs)).
    intros L R. unfold gpu.countContainer.
    destruct (Requests (Resources c) !! ResourceGPU) as [r|],
             (Limits (Resources c) !! ResourceGPU) as [l|];
      rewrite ?wrap64_add_l, <- ?Z.add_assoc, ?wrap64_add_l; f_equal; lia.
Qed.

Lemma countContainer_fold_range (cs : list (Container Qty)) n :
  wrap64 n = n -> wrap64 (fold_left gpu.countContainer cs n) = fold_left gpu.countContainer cs n.
Proof.
  revert n. induction cs as [|c cs IH]; intros n Hn; simpl; [done|].
  apply IH. unfold gpu.countContainer.
  destruct (Requests (Resources c) !! ResourceGPU), (Limits (Resources c) !! ResourceGPU);
    by rewrite ?wrap64_idem.
Qed.

Lemma gpuCount_gpuUnits (pod : Pod.t Qty) :
  gpuCount (sumContainers pod) = gpuUnits pod.
Proof.
  unfold sumContainers, gpuUnits, requestsOf, limitsOf.
  rewrite gpuCount_fold. simpl.
  rewrite <- countContainer_fold_range by done.
  by rewrite countContainer_fold.
Qed.

End CalculatorFacts.

Section CalculatorClaims.
Import cost.
Context {Qty : Type} `{QuantityOps Qty}.

(** C9: the result of [CalculatePodCosts] does not depend on its [nodes]
    argument: for every calculator, every pod sequence and any two node
    sequences the two results are equal. *)
Theorem CalculatePodCosts_ignores_nodes `{S : sort.Slice} (c : Calculator)
    (pods : list (Pod.t Qty)) (nodes1 nodes2 : list (Node.t Qty)) :
  CalculatePodCosts c pods nodes1 = CalculatePodCosts c pods nodes2.
Proof. reflexivity. Qed.

(** C5: for every pod, the GPU count the cost calculator extracts equals
    the [GPUCount] of the GPU analyzer's [analyzePod], and both are the
    accelerator resource summed over every container's requests and every
    container's limits. *)
Theorem gpu_count_paths_agree (c : Calculator) (pod : Pod.t Qty) :
  GPUCount (calculatePodCost c pod) = gpu.PodGPU.GPUCount (gpu.analyzePod pod)
  /\ GPUCount (calculatePodCost c pod) = gpuUnits pod
  /\ gpu.PodGPU.GPUCount (gpu.analyzePod pod) = gpuUnits pod.
Proof.
  assert (Hagree : GPUCount (calculatePodCost c pod)
                   = gpu.PodGPU.GPUCount (gpu.analyzePod pod)).
  { simpl. unfold sumContainers. by rewrite gpuCount_fold. }
  split; [done|]. rewrite <- Hagree. split; apply gpuCount_gpuUnits.
Qed.

(** C8: [CalculatePodCosts] holds one entry per pod whose phase is
    "Running" and nothing else: its result is a rearrangement of the costs
    of the running pods, an entry is in it exactly when it is the cost of
    a running pod of the input, and when no pod is running (a single
    "Pending" pod, say) the result is empty. *)
Theorem CalculatePodCosts_running_only `{S : sort.Slice} (HS : sort.SliceSpec S)
    (c : Calculator) (pods : list (Pod.t Qty)) (nodes : list (Node.t Qty)) :
  CalculatePodCosts c pods nodes
    ≡ₚ calculatePodCost c <$> filter (fun pod => Pod.isRunning pod = true) pods
  /\ (forall pc, pc ∈ CalculatePodCosts c pods nodes <->
        exists pod, pod ∈ pods /\ Pod.Phase pod = PodRunning /\ pc = calculatePodCost c pod)
  /\ (Forall (fun pod => Pod.Phase pod <> PodRunning) pods ->
        CalculatePodCosts c pods nodes = []).
Proof.
  split; [by apply CalculatePodCosts_perm|].
  split; [intros pc; by apply CalculatePodCosts_elem|].
  intros Hall. apply Permutation_nil_r.
  rewrite (CalculatePodCosts_perm HS).
  induction Hall as [|pod pods Hp Hall IH]; [done|].
  rewrite filter_cons_False; [done|].
  by rewrite isRunning_true.
Qed.

(** C1: every entry [pc] of the result of [CalculatePodCosts] has
    [TotalCost pc] equal, bit for bit, to the float64 sum
    [CPUCost pc + MemoryCost pc + GPUCost pc] (so Go's [==] holds between
    them whenever the total is not NaN), and it is the cost of a running
    pod of the input whose three components are the pricing conversions of
    its billable CPU, billable memory and GPU count. *)
Theorem total_is_sum_of_components `{S : sort.Slice} (HS : sort.SliceSpec S)
    (c : Calculator) (pods : list (Pod.t Qty)) (nodes : list (Node.t Qty)) (pc : PodCost) :
  pc ∈ CalculatePodCosts c pods nodes ->
  TotalCost pc = PrimFloat.add (PrimFloat.add (CPUCost pc) (MemoryCost pc)) (GPUCost pc)
  /\ (not_nan (TotalCost pc) = true ->
      feq (TotalCost pc)
          (PrimFloat.add (PrimFloat.add (CPUCost pc) (MemoryCost pc)) (GPUCost pc)) = true)
  /\ exists pod, pod ∈ pods /\ Pod.Phase pod = PodRunning /\
       CPUCost pc = CalculateCPUCost (pricing c)
                      (q_AsApproximateFloat64 (billable ResourceCPU pod)) /\
       MemoryCost pc = CalculateMemoryCost (pricing c)
                      (Value (billable ResourceMemory pod)) /\
       GPUCost pc = CalculateGPUCost (pricing c) (gpuUnits pod).
Proof.
  intros Hin. apply (CalculatePodCosts_elem HS) in Hin as (pod & Hin & Hr & ->).
  split; [done|]. split.
  - intros Hn. by apply eqb_refl.
  - exists pod. rewrite <- cpuToUse_billable, <- memToUse_billable, <- gpuCount_gpuUnits.
    done.
Qed.

End CalculatorClaims.

(** The calculator on a pending and two running pods, with the insertion
    sort. *)
Lemma CalculatePodCosts_sample :
  cost.CalculatePodCosts (S := sort.goInsertion) cost.NewCalculator
    [sample.pendingPod; sample.webPod; sample.bigPod] []
  = [cost.calculatePodCost cost.NewCalculator sample.bigPod;
     cost.calculatePodCost cost.NewCalculator sample.webPod].
Proof. vm_compute. reflexivity. Qed.

Lemma CalculatePodCosts_running_only_witness :
  sort.SliceSpec sort.goInsertion /\
  (cost.CalculatePodCosts (S := sort.goInsertion) cost.NewCalculator [sample.pendingPod] [] = []).
Proof.
  split; [exact goInsertion_spec|].
  apply (CalculatePodCosts_running_only goInsertion_spec cost.NewCalculator
           [sample.pendingPod] []).
  repeat constructor. discriminate.
Defined.

Lemma total_is_sum_of_components_witness :
  let pc := cost.calculatePodCost cost.NewCalculator sample.bigPod in
  pc ∈ cost.CalculatePodCosts (S := sort.goInsertion) cost.NewCalculator
         [sample.pendingPod; sample.webPod; sample.bigPod] [] /\
  cost.TotalCost pc
  = PrimFloat.add (PrimFloat.add (cost.CPUCost pc) (cost.MemoryCost pc)) (cost.GPUCost pc).
Proof.
  intros pc.
  assert (Hin : pc ∈ cost.CalculatePodCosts (S := sort.goInsertion) cost.NewCalculator
                      [sample.pendingPod; sample.webPod; sample.bigPod] []).
  { rewrite CalculatePodCosts_sample. left. }
  split; [exact Hin|].
  exact (proj1 (total_is_sum_of_components goInsertion_spec cost.NewCalculator _ [] pc Hin)).
Defined.

(** ** The recommendation engine *)

Section OptimizerFacts.
Import cost optimize.
Context {Qty : Type} `{QuantityOps Qty}.

Lemma bubblePass_perm n l : bubblePass n l ≡ₚ l.
Proof.
  revert l. induction n as [|n IH]; intros [|a [|b t]]; simpl; try done.
  destruct (PrimFloat.ltb (Savings a) (Savings b)); rewrite IH; [|done].
  apply Permutation_swap.
Qed.

Lemma sortRecommendationsBySavings_perm l : sortRecommendationsBySavings l ≡ₚ l.
Proof.
  unfold sortRecommendationsBySavings.
  generalize (seq 0 (length l - 1)). intros idxs. revert l.
  induction idxs as [|i idxs IH]; intros l; simpl; [done|].
  by rewrite IH, bubblePass_perm.
Qed.

Lemma Analyze_elem o (pods : list (Pod.t Qty)) nodes costs r :
  r ∈ Analyze o pods nodes costs <->
  r ∈ findOverProvisionedPods pods costs \/ r ∈ findPodsWithoutRequests pods \/
  r ∈ findUnusedResources o nodes \/ r ∈ findExpensiveGPUUsage pods costs.
Proof.
  unfold Analyze. rewrite sortRecommendationsBySavings_perm.
  by rewrite !elem_of_app.
Qed.

Lemma findOverProvisionedPods_elem (pods : list (Pod.t Qty)) costs r :
  r ∈ findOverProvisionedPods pods costs <->
  exists i pod c pc, pods !! i = Some pod /\ Pod.Phase pod = PodRunning /\
    c ∈ Pod.Containers pod /\ overProvisioned c = true /\
    costs !! i = Some pc /\ r = rightsizing pod pc.
Proof.
  unfold findOverProvisionedPods. rewrite list_elem_of_join. split.
  - intros (rs & Hr & Hrs).
    apply elem_of_lookup_imap in Hrs as (i & pod & -> & Hi).
    unfold overProvisionedAt in Hr.
    destruct (Pod.isRunning pod) eqn:Hrun; [|by apply elem_of_nil in Hr].
    apply list_elem_of_bind in Hr as (c & Hr & Hc).
    destruct (overProvisioned c) eqn:Hov; [|by apply elem_of_nil in Hr].
    destruct (costs !! i) as [pc|] eqn:Hpc; [|by apply elem_of_nil in Hr].
    apply list_elem_of_singleton in Hr as ->.
    exists i, pod, c, pc. by rewrite <- isRunning_true.
  - intros (i & pod & c & pc & Hi & Hrun & Hc & Hov & Hpc & ->).
    exists (overProvisionedAt costs i pod). split.
    + unfold overProvisionedAt. apply isRunning_true in Hrun. rewrite Hrun.
      apply list_elem_of_bind. exists c. split; [|done].
      rewrite Hov, Hpc. by apply list_elem_of_singleton.
    + by apply elem_of_lookup_imap_2.
Qed.

Lemma findUnusedResources_elem o (nodes : list (Node.t Qty)) r :
  r ∈ findUnusedResources o nodes <->
  exists node, node ∈ nodes /\ underutilized node = true /\ r = unused o node.
Proof.
  unfold findUnusedResources. rewrite list_elem_of_bind. split.
  - intros (node & Hr & Hn). destruct (underutilized node) eqn:Hu;
      [|by apply elem_of_nil in Hr].
    apply list_elem_of_singleton in Hr. by exists node.
  - intros (node & Hn & Hu & ->). exists node. rewrite Hu.
    split; [by apply list_elem_of_singleton|done].
Qed.

Lemma requestedGPUs_fold_none (cs : list (Container Qty)) n :
  (forall c, c ∈ cs -> Requests (Resources c) !! ResourceGPU = None) ->
  fold_left (fun n c =>
    match Requests (Resources c) !! ResourceGPU with
    | Some gpu => wrap64 (n + Value gpu)
    | None => n
    end) cs n = n.
Proof.
  revert n. induction cs as [|c cs IH]; intros n Hall; simpl; [done|].
  rewrite (Hall c) by left. apply IH. intros c' Hc'. apply Hall. by right.
Qed.

Lemma requestedGPUs_none (pod : Pod.t Qty) :
  (forall c, c ∈ Pod.Containers pod -> Requests (Resources c) !! ResourceGPU = None) ->
  requestedGPUs pod = 0.
Proof. apply requestedGPUs_fold_none. Qed.

Lemma requestedGPUs_pos (pod : Pod.t Qty) :
  0 < requestedGPUs pod ->
  exists c, c ∈ Pod.Containers pod /\ is_Some (Requests (Resources c) !! ResourceGPU).
Proof.
  intros Hpos.
  destruct (decide (Exists (fun c => is_Some (Requests (Resources c) !! ResourceGPU))
                           (Pod.Containers pod))) as [Hex|Hno].
  - apply Exists_exists in Hex as (c & Hc & Hs). by exists c.
  - rewrite requestedGPUs_none in Hpos; [lia|].
    intros c Hc. apply eq_None_not_Some. intros Hs. apply Hno.
    apply Exists_exists. by exists c.
Qed.

Lemma findExpensiveGPUUsage_elem (pods : list (Pod.t Qty)) costs r :
  r ∈ findExpensiveGPUUsage pods costs <->
  exists i pod pc, pods !! i = Some pod /\ Pod.Phase pod = PodRunning /\
    0 < requestedGPUs pod /\ costs !! i = Some pc /\
    fgt (GPUCost pc) (PrimFloat.mul (TotalCost pc) 0.7) = true /\ r = gpuReview pod pc.
Proof.
  unfold findExpensiveGPUUsage. rewrite list_elem_of_join. split.
  - intros (rs & Hr & Hrs).
    apply elem_of_lookup_imap in Hrs as (i & pod & -> & Hi).
    unfold expensiveGPUAt in Hr.
    destruct (Pod.isRunning pod) eqn:Hrun; [|by apply elem_of_nil in Hr].
    destruct (0 <? requestedGPUs pod) eqn:Hg; [|by apply elem_of_nil in Hr].
    destruct (costs !! i) as [pc|] eqn:Hpc; [|by apply elem_of_nil in Hr].
    destruct (fgt _ _) eqn:Hgt; [|by apply elem_of_nil in Hr].
    apply list_elem_of_singleton in Hr as ->.
    exists i, pod, pc. rewrite <- isRunning_true. by apply Z.ltb_lt in Hg.
  - intros (i & pod & pc & Hi & Hrun & Hg & Hpc & Hgt & ->).
    exists (expensiveGPUAt costs i pod). split; [|by apply elem_of_lookup_imap_2].
    unfold expensiveGPUAt. apply isRunning_true in Hrun. apply Z.ltb_lt in Hg.
    rewrite Hrun, Hg, Hpc, Hgt. by apply list_elem_of_singleton.
Qed.

Lemma findPodsWithoutRequests_category (pods : list (Pod.t Qty)) r :
  r ∈ findPodsWithoutRequests pods -> Category r = "Best Practice".
Proof.
  unfold findPodsWithoutRequests. case_bool_decide; [|by intros ?%elem_of_nil].
  by intros ->%list_elem_of_singleton.
Qed.

End OptimizerFacts.

Section OptimizerClaims.
Import cost optimize.
Context {Qty : Type} `{QuantityOps Qty}.

Lemma filter_category_nil (cat : string) (l : list Recommendation) :
  (forall r, r ∈ l -> Category r <> cat) ->
  filter (fun r => Category r = cat) l = [].
Proof.
  induction l as [|r l IH]; intros Hall; [done|].
  rewrite filter_cons_False by (apply Hall; left).
  apply IH. intros r' Hr'. apply Hall. by right.
Qed.

(** C10: the expensive-GPU heuristic reads container requests only.  A
    pod none of whose containers has the accelerator key among its
    requests adds nothing in [findExpensiveGPUUsage], whatever its limits
    and its cost entry; and every "GPU" recommendation the optimizer
    returns was produced for a running pod with a container that has the
    accelerator key among its requests. *)
Theorem gpu_heuristic_reads_requests_only (o : Optimizer)
    (pods : list (Pod.t Qty)) (nodes : list (Node.t Qty)) (costs : list PodCost) :
  (forall i pod,
     (forall c, c ∈ Pod.Containers pod -> Requests (Resources c) !! ResourceGPU = None) ->
     expensiveGPUAt costs i pod = [])
  /\ (forall r, r ∈ Analyze o pods nodes costs -> Category r = "GPU" ->
      exists i pod pc, pods !! i = Some pod /\ Pod.Phase pod = PodRunning /\
        costs !! i = Some pc /\ r = gpuReview pod pc /\
        exists c, c ∈ Pod.Containers pod /\
                  is_Some (Requests (Resources c) !! ResourceGPU)).
Proof.
  split.
  - intros i pod Hnone. unfold expensiveGPUAt.
    rewrite (requestedGPUs_none pod Hnone). simpl. by destruct (Pod.isRunning pod).
  - intros r Hr Hcat. apply Analyze_elem in Hr as [Hr|[Hr|[Hr|Hr]]].
    + apply findOverProvisionedPods_elem in Hr as (i & pod & c & pc & _ & _ & _ & _ & _ & ->).
      discriminate.
    + apply findPodsWithoutRequests_category in Hr. congruence.
    + apply findUnusedResources_elem in Hr as (node & _ & _ & ->). discriminate.
    + apply findExpensiveGPUUsage_elem in Hr as (i & pod & pc & Hi & Hrun & Hg & Hpc & _ & ->).
      exists i, pod, pc. repeat split; try done. by apply requestedGPUs_pos.
Qed.

(** C3, as the code has it: the rightsizing rule reads the cost entry at
    the pod's own index, and emits nothing without one.  For a running pod at index [i], a container
    whose CPU and memory requests are both non-zero and whose CPU request
    is above 4 cores or memory request above 16 GiB, and a cost entry
    [pc] at index [i] of the cost sequence, the optimizer returns a
    "High" "Rightsizing" recommendation whose savings are
    [TotalCost pc * 0.3].  In particular a running pod with one container
    that requests 5.0 cores and a non-zero amount of memory, with the
    cost entry of total 100, gets exactly one such recommendation, with
    savings 30.  Every "Rightsizing" recommendation returned comes from
    such a pod, container and cost entry. *)
Theorem rightsizing_uses_cost_at_same_index (o : Optimizer) (nodes : list (Node.t Qty)) :
  (forall pods costs i pod c pc,
     pods !! i = Some pod -> Pod.Phase pod = PodRunning ->
     c ∈ Pod.Containers pod ->
     q_IsZero (index (Requests (Resources c)) ResourceCPU) = false ->
     q_IsZero (index (Requests (Resources c)) ResourceMemory) = false ->
     fgt (q_AsApproximateFloat64 (index (Requests (Resources c)) ResourceCPU)) 4 = true
       \/ 16 * 1024 * 1024 * 1024 < Value (index (Requests (Resources c)) ResourceMemory) ->
     costs !! i = Some pc ->
     exists r, r ∈ Analyze o pods nodes costs /\
       Priority r = "High" /\ Category r = "Rightsizing" /\
       Savings r = PrimFloat.mul (TotalCost pc) 0.3)
  /\ (forall pod c pc,
     Pod.Phase pod = PodRunning -> Pod.Containers pod = [c] ->
     q_AsApproximateFloat64 (index (Requests (Resources c)) ResourceCPU) = 5%float ->
     q_IsZero (index (Requests (Resources c)) ResourceCPU) = false ->
     q_IsZero (index (Requests (Resources c)) ResourceMemory) = false ->
     TotalCost pc = 100%float ->
     exists r,
       filter (fun r => Category r = "Rightsizing") (Analyze o [pod] nodes [pc]) = [r] /\
       Priority r = "High" /\ Savings r = 30%float)
  /\ (forall pods costs r,
     r ∈ Analyze o pods nodes costs -> Category r = "Rightsizing" ->
     exists i pod c pc, pods !! i = Some pod /\ Pod.Phase pod = PodRunning /\
       c ∈ Pod.Containers pod /\ overProvisioned c = true /\
       costs !! i = Some pc /\ r = rightsizing pod pc).
Proof.
  split; [|split].
  - intros pods costs i pod c pc Hi Hrun Hc Hcpu Hmem Hbig Hpc.
    exists (rightsizing pod pc). split; [|done].
    apply Analyze_elem. left. apply findOverProvisionedPods_elem.
    exists i, pod, c, pc. repeat split; try done.
    unfold overProvisioned. rewrite Hcpu, Hmem. simpl.
    destruct Hbig as [->|Hbig]; [done|].
    apply Z.ltb_lt in Hbig. rewrite Hbig. by rewrite orb_true_r.
  - intros pod c pc Hrun Hcs Hfive Hcpu Hmem Htot.
    exists (rightsizing pod pc). split; [|split; [done|]].
    + apply Permutation_singleton_r.
      unfold Analyze. rewrite sortRecommendationsBySavings_perm.
      rewrite !filter_app.
      rewrite (filter_category_nil _ (findPodsWithoutRequests _)).
      2:{ intros r Hr%findPodsWithoutRequests_category. by rewrite Hr. }
      rewrite (filter_category_nil _ (findUnusedResources _ _)).
      2:{ by intros r (node & _ & _ & ->)%findUnusedResources_elem. }
      rewrite (filter_category_nil _ (findExpensiveGPUUsage _ _)).
      2:{ by intros r (i & p & pc' & _ & _ & _ & _ & _ & ->)%findExpensiveGPUUsage_elem. }
      rewrite !app_nil_r.
      unfold findOverProvisionedPods, overProvisionedAt; simpl.
      apply isRunning_true in Hrun. rewrite Hrun, Hcs. simpl.
      unfold overProvisioned. rewrite Hcpu, Hmem, Hfive. simpl.
      by rewrite filter_cons_True, filter_nil.
    + simpl. by rewrite Htot.
  - intros pods costs r Hr Hcat. apply Analyze_elem in Hr as [Hr|[Hr|[Hr|Hr]]].
    + by apply findOverProvisionedPods_elem.
    + apply findPodsWithoutRequests_category in Hr. congruence.
    + apply findUnusedResources_elem in Hr as (node & _ & _ & ->). discriminate.
    + apply findExpensiveGPUUsage_elem in Hr as (i & pod & pc & _ & _ & _ & _ & _ & ->).
      discriminate.
Qed.

End OptimizerClaims.

Lemma gpu_heuristic_reads_requests_only_witness :
  let pc := cost.calculatePodCost cost.NewCalculator sample.gpuLimitPod in
  fgt (cost.GPUCost pc) (PrimFloat.mul (cost.TotalCost pc) 0.7) = true /\
  optimize.expensiveGPUAt [pc] 0 sample.gpuLimitPod = [].
Proof.
  split; [reflexivity|].
  apply (proj1 (gpu_heuristic_reads_requests_only optimize.NewOptimizer
                  [sample.gpuLimitPod] [] _)).
  intros c Hc. apply list_elem_of_singleton in Hc. by subst c.
Defined.

Lemma rightsizing_uses_cost_at_same_index_witness :
  (exists r,
     r ∈ optimize.Analyze optimize.NewOptimizer [sample.pendingPod; sample.bigPod] []
           [sample.hundred; sample.hundred] /\
     optimize.Priority r = "High" /\ optimize.Category r = "Rightsizing" /\
     optimize.Savings r = PrimFloat.mul (cost.TotalCost sample.hundred) 0.3) /\
  (exists r,
     filter (fun r => optimize.Category r = "Rightsizing")
       (optimize.Analyze optimize.NewOptimizer [sample.bigPod] [] [sample.hundred]) = [r] /\
     optimize.Priority r = "High" /\ optimize.Savings r = 30%float).
Proof.
  pose (c := sample.container
    {[ ResourceCPU := milli.cores 5; ResourceMemory := milli.bytes sample.GiB ]} ∅).
  split.
  - apply (proj1 (rightsizing_uses_cost_at_same_index optimize.NewOptimizer [])
             [sample.pendingPod; sample.bigPod] [sample.hundred; sample.hundred]
             1%nat sample.bigPod c sample.hundred); try reflexivity.
    + left.
    + left. reflexivity.
  - apply (proj1 (proj2 (rightsizing_uses_cost_at_same_index optimize.NewOptimizer []))
             sample.bigPod c sample.hundred); reflexivity.
Defined.

(** C3, as stated, fails on the path of cmd/optimize.go: the cost
    sequence holds running pods only, so a running, over-provisioned pod
    listed after a pending one has no cost entry at its index and gets no
    recommendation. *)
Lemma rightsizing_missed_after_pending_pod :
  Pod.Phase sample.bigPod = PodRunning /\
  (exists c, c ∈ Pod.Containers sample.bigPod /\ optimize.overProvisioned c = true) /\
  ~ exists r,
      r ∈ optimize.runOptimize (S := sort.goInsertion) [sample.pendingPod; sample.bigPod] [] /\
      optimize.Category r = "Rightsizing".
Proof.
  split; [reflexivity|]. split.
  - eexists. split; [left|reflexivity].
  - intros (r & Hr & _).
    assert (Hnil : optimize.runOptimize (S := sort.goInsertion)
                     [sample.pendingPod; sample.bigPod] [] = []) by (vm_compute; reflexivity).
    rewrite Hnil in Hr. by apply elem_of_nil in Hr.
Qed.

(** On the same path a pod can be charged with another pod's cost: the
    cost sequence is sorted, so the over-provisioned pod at index 1 is
    given the total of the cheaper pod that the sort moved to index 1. *)
Lemma rightsizing_reads_cost_of_other_pod :
  optimize.Savings
    <$> filter (fun r => optimize.Category r = "Rightsizing")
          (optimize.runOptimize (S := sort.goInsertion) [sample.webPod; sample.bigPod] [])
  = [PrimFloat.mul (cost.TotalCost (cost.calculatePodCost cost.NewCalculator sample.webPod)) 0.3]
  /\ feq (PrimFloat.mul (cost.TotalCost (cost.calculatePodCost cost.NewCalculator sample.webPod)) 0.3)
         (PrimFloat.mul (cost.TotalCost (cost.calculatePodCost cost.NewCalculator sample.bigPod)) 0.3)
     = false.
Proof. split; vm_compute; reflexivity. Qed.

(** C2 at a node with a GPU: the node is reported as unused, the savings
    are half of its CPU and memory cost (52.56), while half of the cost
    [CalculateNodeCost] gives, GPU included, is 381.06. *)
Theorem unused_node_savings_leave_out_gpu :
  optimize.underutilized sample.gpuNode = true /\
  optimize.findUnusedResources optimize.NewOptimizer [sample.gpuNode]
    = [optimize.unused optimize.NewOptimizer sample.gpuNode] /\
  optimize.Savings (optimize.unused optimize.NewOptimizer sample.gpuNode)
    = 52.560000000000002%float /\
  PrimFloat.mul (cost.CalculateNodeCost cost.NewCalculator sample.gpuNode) 0.5
    = 381.06%float /\
  feq (optimize.Savings (optimize.unused optimize.NewOptimizer sample.gpuNode))
      (PrimFloat.mul (cost.CalculateNodeCost cost.NewCalculator sample.gpuNode) 0.5)
    = false.
Proof. repeat split; vm_compute; reflexivity. Qed.

(** ** The order of the cost report *)

Section ReportOrder.
Import cost FloatOrder.
Context {Qty : Type} `{QuantityOps Qty}.

Lemma byTotalCostDesc_strict_weak (l : list PodCost) :
  (forall pc, pc ∈ l -> not_nan (TotalCost pc) = true) ->
  sort.strict_weak byTotalCostDesc l.
Proof.
  intros Hn. unfold byTotalCostDesc, fgt. repeat split.
  - intros x _. apply ltb_irrefl.
  - intros x y z Hx Hy Hz Hxy Hyz.
    apply ltb_key in Hxy; auto. apply ltb_key in Hyz; auto.
    apply ltb_key; auto. by apply (lexlt_trans _ (key (Prim2SF (TotalCost y)))).
  - intros x y z Hx Hy Hz Hxy Hyz.
    apply not_true_iff_false in Hxy, Hyz. apply not_true_iff_false.
    rewrite ltb_key in Hxy, Hyz |- * by auto.
    by apply (lexlt_neg_trans _ (key (Prim2SF (TotalCost y)))).
Qed.


End ReportOrder.



(** ** The pricing model *)

Section PricingFacts.
Import cost.

Lemma mul_zero_l x r s :
  Prim2SF x = S754_zero s -> finite64 r = true ->
  exists s', Prim2SF (PrimFloat.mul x r) = S754_zero s'.
Proof.
  unfold finite64. intros Hx Hr. rewrite FloatAxioms.mul_spec, Hx.
  destruct (Prim2SF r); try discriminate; simpl; eauto.
Qed.

Lemma div_zero_l x y s :
  Prim2SF x = S754_zero s -> finite64 y = true -> PrimFloat.is_zero y = false ->
  exists s', Prim2SF (PrimFloat.div x y) = S754_zero s'.
Proof.
  unfold finite64, PrimFloat.is_zero. intros Hx Hy Hnz.
  rewrite FloatAxioms.eqb_spec in Hnz. rewrite FloatAxioms.div_spec, Hx.
  destruct (Prim2SF y); try discriminate; simpl; eauto.
Qed.

Lemma feq_zero x s : Prim2SF x = S754_zero s -> feq x 0 = true.
Proof. unfold feq. intros Hx. by rewrite FloatAxioms.eqb_spec, Hx. Qed.

End PricingFacts.

(** C7, as the code has it.  With finite rates each of the four
    conversions is 0 at 0 (Go's [==]); [CalculateCPUCost] is
    [cores * CPUHourlyCost * 730], multiplied from left to right; and,
    read over the rationals, each conversion takes an input scaled by [k]
    to the output scaled by [k]. *)
Theorem pricing_conversions :
  (forall p : cost.Pricing float,
     finite64 (cost.CPUHourlyCost p) = true -> finite64 (cost.MemoryGBHourly p) = true ->
     finite64 (cost.GPUHourlyCost p) = true -> finite64 (cost.StorageGBMonthly p) = true ->
     feq (cost.CalculateCPUCost p 0%float) 0 = true /\
     feq (cost.CalculateMemoryCost p 0) 0 = true /\
     feq (cost.CalculateGPUCost p 0) 0 = true /\
     feq (cost.CalculateStorageCost p 0) 0 = true)
  /\ (forall (p : cost.Pricing float) cores,
     cost.CalculateCPUCost p cores
     = PrimFloat.mul (PrimFloat.mul cores (cost.CPUHourlyCost p)) 730)
  /\ (forall (p : cost.Pricing Q) (k : Q) (cores : Q) (n bytes count : Z),
     Qeq (cost.CalculateCPUCost p (Qmult k cores)) (Qmult k (cost.CalculateCPUCost p cores)) /\
     Qeq (cost.CalculateMemoryCost p (n * bytes))
         (Qmult (inject_Z n) (cost.CalculateMemoryCost p bytes)) /\
     Qeq (cost.CalculateGPUCost p (n * count))
         (Qmult (inject_Z n) (cost.CalculateGPUCost p count)) /\
     Qeq (cost.CalculateStorageCost p (n * bytes))
         (Qmult (inject_Z n) (cost.CalculateStorageCost p bytes))).
Proof.
  split; [|split].
  - intros p Hcpu Hmem Hgpu Hsto.
    assert (Hz : Prim2SF 0%float = S754_zero false) by reflexivity.
    assert (Hh : finite64 (cost.hoursPerMonth (F := float)) = true) by reflexivity.
    assert (Hgb : exists s, Prim2SF (PrimFloat.div (float64_of_int 0)
                    (cost.bytesPerGB (F := float))) = S754_zero s)
      by (by apply (div_zero_l _ _ false)).
    destruct Hgb as [sg Hgb].
    repeat split; unfold cost.CalculateCPUCost, cost.CalculateMemoryCost,
      cost.CalculateGPUCost, cost.CalculateStorageCost; simpl.
    + destruct (mul_zero_l _ _ _ Hz Hcpu) as [s1 H1].
      destruct (mul_zero_l _ _ _ H1 Hh) as [s2 H2]. by apply (feq_zero _ s2).
    + destruct (mul_zero_l _ _ _ Hgb Hmem) as [s1 H1].
      destruct (mul_zero_l _ _ _ H1 Hh) as [s2 H2]. by apply (feq_zero _ s2).
    + destruct (mul_zero_l _ _ _ Hz Hgpu) as [s1 H1].
      destruct (mul_zero_l _ _ _ H1 Hh) as [s2 H2]. by apply (feq_zero _ s2).
    + destruct (mul_zero_l _ _ _ Hgb Hsto) as [s1 H1]. by apply (feq_zero _ s1).
  - reflexivity.
  - intros p k cores n bytes count.
    unfold cost.CalculateCPUCost, cost.CalculateMemoryCost, cost.CalculateGPUCost,
      cost.CalculateStorageCost, cost.hoursPerMonth, cost.bytesPerGB; simpl.
    rewrite !inject_Z_mult. unfold Qdiv.
    repeat split; ring.
Qed.

Lemma pricing_conversions_witness :
  feq (cost.CalculateCPUCost cost.DefaultPricing 0%float) 0 = true /\
  feq (cost.CalculateMemoryCost cost.DefaultPricing 0) 0 = true /\
  feq (cost.CalculateGPUCost cost.DefaultPricing 0) 0 = true /\
  feq (cost.CalculateStorageCost cost.DefaultPricing 0) 0 = true.
Proof. apply (proj1 pricing_conversions cost.DefaultPricing); reflexivity. Defined.

(** C7, as stated, fails in float64: with the default rates, three times
    the input does not give three times the cost for CPU, memory or GPU,
    and with an infinite rate the cost of 0 is NaN. *)
Lemma cost_not_linear_in_float64 :
  feq (cost.CalculateCPUCost cost.DefaultPricing (PrimFloat.mul 3 0.1))
      (PrimFloat.mul 3 (cost.CalculateCPUCost cost.DefaultPricing 0.1%float)) = false /\
  feq (cost.CalculateMemoryCost cost.DefaultPricing (3 * sample.GiB))
      (PrimFloat.mul 3 (cost.CalculateMemoryCost cost.DefaultPricing sample.GiB)) = false /\
  feq (cost.CalculateGPUCost cost.DefaultPricing (3 * 1))
      (PrimFloat.mul 3 (cost.CalculateGPUCost cost.DefaultPricing 1)) = false /\
  feq (cost.CalculateCPUCost
         {| cost.CPUHourlyCost := infinity; cost.MemoryGBHourly := 0.003%float;
            cost.GPUHourlyCost := 0.9%float; cost.StorageGBMonthly := 0.1%float |}
         0%float) 0 = false.
Proof. repeat split; vm_compute; reflexivity. Qed.

(** ** From an integer to a binary64 *)

Section IntToFloat.
Import FloatOrder.

Lemma digits2_pos_lower p : 2 ^ (Z.pos (digits2_pos p) - 1) <= Z.pos p.
Proof.
  induction p as [p IH|p IH|]; simpl digits2_pos; [| |simpl; lia].
  - rewrite Pos2Z.inj_succ.
    replace (Z.succ (Z.pos (digits2_pos p)) - 1) with (Z.succ (Z.pos (digits2_pos p) - 1)) by lia.
    rewrite Z.pow_succ_r by lia. lia.
  - rewrite Pos2Z.inj_succ.
    replace (Z.succ (Z.pos (digits2_pos p)) - 1) with (Z.succ (Z.pos (digits2_pos p) - 1)) by lia.
    rewrite Z.pow_succ_r by lia. lia.
Qed.

Lemma shr_1_m mrs : 0 <= shr_m mrs -> shr_m (shr_1 mrs) = shr_m mrs / 2.
Proof.
  destruct mrs as [m r s]. simpl. intros Hm. rewrite <- Z.div2_div.
  destruct m as [|[p|p|]|p]; try reflexivity. lia.
Qed.

Lemma iter_shr_1_m n mrs :
  0 <= shr_m mrs -> shr_m (SpecFloat.iter_pos shr_1 n mrs) = shr_m mrs / 2 ^ Z.pos n.
Proof.
  revert mrs. induction n as [n IH|n IH|]; intros mrs Hm; simpl SpecFloat.iter_pos.
  - assert (H1 : 0 <= shr_m (shr_1 mrs)) by (rewrite shr_1_m by done; apply Z.div_pos; lia).
    assert (H2 : 0 <= shr_m (SpecFloat.iter_pos shr_1 n (shr_1 mrs)))
      by (rewrite IH by done; apply Z.div_pos; lia).
    rewrite IH, IH, shr_1_m by done.
    rewrite !Z.div_div by lia. f_equal.
    rewrite Pos2Z.inj_xI, <- Z.pow_add_r, <- Z.pow_succ_r by lia. f_equal. lia.
  - assert (H2 : 0 <= shr_m (SpecFloat.iter_pos shr_1 n mrs))
      by (rewrite IH by done; apply Z.div_pos; lia).
    rewrite IH, IH by done.
    rewrite !Z.div_div by lia. f_equal.
    rewrite Pos2Z.inj_xO, <- Z.pow_add_r by lia. f_equal. lia.
  - rewrite shr_1_m by done. by rewrite Z.pow_1_r.
Qed.

Lemma shr_fexp_pos m e l :
  0 < m -> emin < e + Zdigits2 m ->
  0 < shr_m (fst (shr_fexp prec emax m e l)) /\ e <= snd (shr_fexp prec emax m e l).
Proof.
  intros Hm He. unfold shr_fexp, shr.
  assert (Hrec : shr_m (shr_record_of_loc m l) = m) by (by destruct l as [|[]]).
  destruct m as [|p|p]; try lia. simpl Zdigits2 in *.
  pose proof (digits2_pos_lower p) as Hd.
  unfold fexp, SpecFloat.emin in *.
  destruct (Z.max (Z.pos (digits2_pos p) + e - prec) (3 - emax - prec) - e) as [|n|n] eqn:Hn;
    simpl; rewrite ?Hrec; try lia.
  rewrite iter_shr_1_m by (rewrite Hrec; lia). rewrite Hrec.
  split; [|lia].
  apply Z.div_str_pos. split; [lia|].
  apply Z.le_trans with (2 ^ (Z.pos (digits2_pos p) - 1)); [|done].
  apply Z.pow_le_mono_r; [lia|]. unfold prec, emax in *. lia.
Qed.

Lemma round_nearest_even_pos m l : 0 < m -> 0 < round_nearest_even m l.
Proof.
  intros Hm. destruct l as [|[]]; simpl; try lia. destruct (Z.even m); lia.
Qed.

Lemma Zdigits2_pos m : 0 < m -> 0 < Zdigits2 m.
Proof. destruct m; simpl; lia. Qed.

Lemma binary_round_aux_nonzero sx m e l :
  0 < m -> emin <= e -> nonzero_SF (binary_round_aux prec emax sx m e l).
Proof.
  intros Hm He. unfold binary_round_aux.
  pose proof (shr_fexp_pos m e l Hm) as Hp.
  destruct (shr_fexp prec emax m e l) as [mrs' e']. simpl in Hp.
  destruct Hp as [Hm1 He1]; [pose proof (Zdigits2_pos m Hm); lia|].
  pose proof (round_nearest_even_pos _ (loc_of_shr_record mrs') Hm1) as Hr.
  pose proof (shr_fexp_pos _ e' loc_Exact Hr) as Hp.
  destruct (shr_fexp prec emax _ e' loc_Exact) as [mrs'' e'']. simpl in Hp.
  destruct Hp as [Hm2 He2]; [pose proof (Zdigits2_pos _ Hr); lia|].
  destruct (shr_m mrs''); try lia. simpl. by destruct (e'' <=? emax - prec).
Qed.

Lemma binary_normalize_nonzero p :
  nonzero_SF (binary_normalize prec emax (Z.pos p) 0 false).
Proof.
  unfold binary_normalize, binary_round, shl_align.
  destruct (fexp prec emax (Z.pos (digits2_pos p) + 0) - 0) eqn:Hd;
    apply binary_round_aux_nonzero; unfold fexp, SpecFloat.emin, prec, emax; lia.
Qed.

Lemma float64_of_int_nonzero z :
  0 < z < 2 ^ 63 -> PrimFloat.is_zero (float64_of_int z) = false.
Proof.
  intros Hz. unfold float64_of_int, PrimFloat.is_zero.
  destruct (Z.eqb_spec z (- 2 ^ 63)); [lia|].
  destruct (Z.ltb_spec z 0); [lia|].
  rewrite FloatAxioms.eqb_spec, FloatAxioms.of_uint63_spec, Uint63.of_Z_spec.
  rewrite Z.mod_small by (change Uint63Axioms.wB with (2 ^ 63); lia).
  destruct z as [|p|p]; try lia.
  pose proof (binary_normalize_nonzero p) as Hn.
  change (Prim2SF zero) with (S754_zero false).
  by destruct (binary_normalize prec emax (Z.pos p) 0 false) as [s|[]| |[] m e].
Qed.

Lemma wrap64_range z : - 2 ^ 63 <= wrap64 z < 2 ^ 63.
Proof. unfold wrap64. pose proof (Z.mod_pos_bound (z + 2 ^ 63) (2 ^ 64)). lia. Qed.

End IntToFloat.

(** ** The GPU analyzer *)

Section AnalyzerClaims.
Import gpu.
Context {Qty : Type} `{QuantityOps Qty}.

Lemma addNode_total_range (nodes : list (Node.t Qty)) st :
  - 2 ^ 63 <= st.1.2 < 2 ^ 63 ->
  - 2 ^ 63 <= (fold_left addNode nodes st).1.2 < 2 ^ 63.
Proof.
  revert st. induction nodes as [|node nodes IH]; intros [[ns total] allocated] Hr;
    simpl; [done|].
  apply IH. destruct (0 <? NodeGPU.TotalGPUs (analyzeNode node)); [|done].
  simpl. apply wrap64_range.
Qed.

Lemma Analyze_fields (nodes : list (Node.t Qty)) (pods : list (Pod.t Qty)) :
  UtilizationPct (Analyze nodes pods)
    = utilization (TotalGPUs (Analyze nodes pods)) (AllocatedGPUs (Analyze nodes pods))
  /\ - 2 ^ 63 <= TotalGPUs (Analyze nodes pods) < 2 ^ 63.
Proof.
  unfold Analyze.
  pose proof (addNode_total_range nodes ([], 0, 0)) as Hr.
  destruct (fold_left addNode nodes ([], 0, 0)) as [[ns total] allocated].
  simpl in *. split; [done|]. apply Hr. lia.
Qed.

(** C6: in the report of [Analyze], [UtilizationPct] is
    [float64(AllocatedGPUs) / float64(TotalGPUs) * 100] when [TotalGPUs]
    is above 0, and the divisor is then not zero; it is 0 when
    [TotalGPUs] is 0, where no quotient is taken. *)
Theorem utilization_guarded (nodes : list (Node.t Qty)) (pods : list (Pod.t Qty)) :
  let a := Analyze nodes pods in
  (0 < TotalGPUs a ->
     UtilizationPct a
     = PrimFloat.mul (PrimFloat.div (float64_of_int (AllocatedGPUs a))
                                    (float64_of_int (TotalGPUs a))) 100
     /\ PrimFloat.is_zero (float64_of_int (TotalGPUs a)) = false)
  /\ (TotalGPUs a = 0 -> UtilizationPct a = 0%float)
  /\ UtilizationPct a = utilization (TotalGPUs a) (AllocatedGPUs a).
Proof.
  intros a. destruct (Analyze_fields nodes pods) as [Hu Hr]. fold a in Hu, Hr.
  repeat split; [| | |done].
  - rewrite Hu. unfold utilization. by destruct (Z.ltb_spec 0 (TotalGPUs a)); [|lia].
  - apply float64_of_int_nonzero. lia.
  - intros Hz. rewrite Hu, Hz. reflexivity.
Qed.

End AnalyzerClaims.

Lemma utilization_guarded_witness :
  let a := gpu.Analyze [sample.busyGPUNode] [sample.gpuLimitPod] in
  0 < gpu.TotalGPUs a /\ gpu.AllocatedGPUs a = 6 /\ gpu.TotalGPUs a = 8 /\
  gpu.UtilizationPct a = 75%float /\
  PrimFloat.is_zero (float64_of_int (gpu.TotalGPUs a)) = false.
Proof.
  intros a.
  assert (Hpos : 0 < gpu.TotalGPUs a) by reflexivity.
  destruct (proj1 (utilization_guarded [sample.busyGPUNode] [sample.gpuLimitPod]) Hpos)
    as [Hu Hnz].
  split; [exact Hpos|]. split; [reflexivity|]. split; [reflexivity|].
  split; [reflexivity|exact Hnz].
Defined.

(** Why C4 needs totals that are numbers: with an infinite GPU rate a pod
    without GPUs costs NaN, and NaN is not [>=] anything. *)
Lemma nan_total_is_not_ordered :
  let c := cost.NewCalculatorWithPricing
             {| cost.CPUHourlyCost := 0.024%float; cost.MemoryGBHourly := 0.003%float;
                cost.GPUHourlyCost := infinity; cost.StorageGBMonthly := 0.1%float |} in
  cost.TotalCost <$> cost.CalculatePodCosts (S := sort.goInsertion) c
                       [sample.webPod; sample.gpuLimitPod] []
  = [nan; infinity]
  /\ fge nan infinity = false.
Proof. split; vm_compute; reflexivity. Qed.

(** * The rest of the engine *)

(** ** More on binary64 comparisons *)

Section FloatCompare.
Import FloatOrder.

Lemma SFeqb_key a b : SFeqb a b = true -> isNaN a = false /\ isNaN b = false /\ key a = key b.
Proof.
  unfold SFeqb.
  destruct a as [sa|sa| |sa ma ea], b as [sb|sb| |sb mb eb]; simpl; try discriminate;
    try destruct sa; try destruct sb; simpl; try discriminate; try done.
  all: pose proof (Pos.compare_spec ma mb) as Hc; unfold Pos.compare in Hc.
  all: destruct (Z.compare_spec ea eb); simpl; try discriminate;
    destruct Hc; simpl; try discriminate; by subst.
Qed.

Lemma eqb_key x y :
  PrimFloat.eqb x y = true ->
  not_nan x = true /\ not_nan y = true /\ key (Prim2SF x) = key (Prim2SF y).
Proof.
  rewrite FloatAxioms.eqb_spec. intros (Hx & Hy & Hk)%SFeqb_key.
  unfold not_nan. by destruct (Prim2SF x), (Prim2SF y).
Qed.

Lemma ltb_not_nan x y :
  PrimFloat.ltb x y = true -> not_nan x = true /\ not_nan y = true.
Proof.
  rewrite FloatAxioms.ltb_spec. unfold SFltb, not_nan.
  by destruct (Prim2SF x), (Prim2SF y).
Qed.

Lemma lexlt_irrefl a : ~ lexlt a a.
Proof. unfold lexlt. lia. Qed.

(** Two values equal to a third are not in strict order. *)
Lemma eqb_eqb_not_ltb x y v :
  PrimFloat.eqb x v = true -> PrimFloat.eqb y v = true -> PrimFloat.ltb x y = false.
Proof.
  intros (Hx & _ & Hkx)%eqb_key (Hy & _ & Hky)%eqb_key.
  apply not_true_iff_false. rewrite ltb_key by done. rewrite Hkx, Hky.
  apply lexlt_irrefl.
Qed.

Lemma ltb_asym x y : PrimFloat.ltb x y = true -> PrimFloat.ltb y x = false.
Proof.
  intros Hxy. destruct (ltb_not_nan _ _ Hxy) as [Hx Hy].
  apply not_true_iff_false. rewrite ltb_key in Hxy |- * by done.
  unfold lexlt in *. lia.
Qed.

Lemma not_ltb_trans x y z :
  not_nan x = true -> not_nan y = true -> not_nan z = true ->
  PrimFloat.ltb x y = false -> PrimFloat.ltb y z = false -> PrimFloat.ltb x z = false.
Proof.
  intros Hx Hy Hz Hxy Hyz. apply not_true_iff_false in Hxy, Hyz.
  apply not_true_iff_false. rewrite ltb_key in Hxy, Hyz |- * by done.
  by apply (lexlt_neg_trans _ (key (Prim2SF y))).
Qed.

Lemma not_ltb_fge x y :
  not_nan x = true -> not_nan y = true -> PrimFloat.ltb x y = false -> fge x y = true.
Proof.
  intros Hx Hy Hxy. unfold fge. apply leb_key; [done..|].
  apply not_true_iff_false in Hxy. by rewrite ltb_key in Hxy.
Qed.

(** Adding a zero leaves a number as it is, up to [==]. *)
Lemma add_zero_r x z s :
  Prim2SF z = S754_zero s -> not_nan x = true -> feq (PrimFloat.add x z) x = true.
Proof.
  unfold feq, not_nan. intros Hz Hx.
  rewrite FloatAxioms.eqb_spec, FloatAxioms.add_spec, Hz. unfold SFeqb.
  destruct (Prim2SF x) as [sx|sx| |sx m e]; try done; simpl.
  - by destruct sx, s.
  - by destruct sx.
  - destruct sx; by rewrite Z.compare_refl, Pos.compare_cont_refl.
Qed.

End FloatCompare.

(** ** [sortRecommendationsBySavings] *)

Section BubbleSort.
Import optimize.

Lemma StronglySorted_lookup {A} (R : A -> A -> Prop) (l : list A) i j a b :
  StronglySorted R l -> (i < j)%nat -> l !! i = Some a -> l !! j = Some b -> R a b.
Proof.
  intros Hs. revert i j. induction Hs as [|x l Hs IH Hall]; intros i j Hij Hi Hj; [done|].
  destruct j as [|j]; [lia|]. simpl in Hj. destruct i as [|i]; simpl in Hi.
  - injection Hi as ->. rewrite Forall_forall in Hall. apply Hall.
    by eapply list_elem_of_lookup_2.
  - apply (IH i j); [lia|done..].
Qed.

Lemma bubblePass_sinks n (l1 l2 : list Recommendation) :
  length l1 = S n ->
  (forall r, r ∈ l1 -> not_nan (Savings r) = true) ->
  exists l1' m,
    bubblePass n (l1 ++ l2) = l1' ++ m :: l2 /\ l1' ++ [m] ≡ₚ l1 /\
    Forall (fun x => PrimFloat.ltb (Savings x) (Savings m) = false) l1'.
Proof.
  revert l1. induction n as [|n IH]; intros l1 Hlen Hnn.
  - destruct l1 as [|a [|? ?]]; try done. exists [], a. by repeat split.
  - destruct l1 as [|a [|b t]]; try done. simpl in Hlen.
    assert (Ha : not_nan (Savings a) = true) by (apply Hnn; left).
    assert (Hb : not_nan (Savings b) = true) by (apply Hnn; right; left).
    simpl. destruct (PrimFloat.ltb (Savings a) (Savings b)) eqn:Hab.
    + assert (Hsub : forall r, r ∈ a :: t -> r ∈ a :: b :: t).
      { intros r [->|Hr]%elem_of_cons; [left|right; by right]. }
      destruct (IH (a :: t)) as (l1' & m & Heq & Hperm & Hall);
        [simpl; lia | intros r Hr; apply Hnn; by apply Hsub |].
      simpl in Heq. rewrite Heq. exists (b :: l1'), m.
      assert (Hm : not_nan (Savings m) = true).
      { apply Hnn, Hsub. rewrite <- Hperm. apply elem_of_app. right. left. }
      assert (Ham : PrimFloat.ltb (Savings a) (Savings m) = false).
      { assert (Hin : a ∈ l1' ++ [m]) by (rewrite Hperm; left).
        apply elem_of_app in Hin as [Hin|Hin].
        - rewrite Forall_forall in Hall. by apply Hall.
        - apply list_elem_of_singleton in Hin as ->. apply ltb_irrefl. }
      repeat split.
      * simpl. rewrite Hperm. apply Permutation_swap.
      * constructor; [|done].
        apply (not_ltb_trans _ (Savings a)); try done. by apply ltb_asym.
    + destruct (IH (b :: t)) as (l1' & m & Heq & Hperm & Hall);
        [simpl; lia | intros r Hr; apply Hnn; by right |].
      simpl in Heq. rewrite Heq. exists (a :: l1'), m.
      assert (Hm : not_nan (Savings m) = true).
      { apply Hnn. right. rewrite <- Hperm. apply elem_of_app. right. left. }
      assert (Hbm : PrimFloat.ltb (Savings b) (Savings m) = false).
      { assert (Hin : b ∈ l1' ++ [m]) by (rewrite Hperm; left).
        apply elem_of_app in Hin as [Hin|Hin].
        - rewrite Forall_forall in Hall. by apply Hall.
        - apply list_elem_of_singleton in Hin as ->. apply ltb_irrefl. }
      repeat split.
      * simpl. by rewrite Hperm.
      * constructor; [|done]. by apply (not_ltb_trans _ (Savings b)).
Qed.

Lemma bubble_loop cnt (front back : list Recommendation) :
  length front = S cnt ->
  (forall r, r ∈ front -> not_nan (Savings r) = true) ->
  StronglySorted (fun a b => PrimFloat.ltb (Savings a) (Savings b) = false) back ->
  (forall x y, x ∈ front -> y ∈ back -> PrimFloat.ltb (Savings x) (Savings y) = false) ->
  StronglySorted (fun a b => PrimFloat.ltb (Savings a) (Savings b) = false)
    (fold_left (fun l i => bubblePass (length l - i - 1) l)
       (seq (length back) cnt) (front ++ back)).
Proof.
  revert front back. induction cnt as [|cnt IH]; intros front back Hlen Hnn Hs Hcross.
  - destruct front as [|f [|? ?]]; try done. simpl. constructor; [done|].
    apply Forall_forall. intros y Hy. apply Hcross; [left|done].
  - simpl.
    replace (length (front ++ back) - length back - 1)%nat with (S cnt)
      by (rewrite length_app; lia).
    destruct (bubblePass_sinks (S cnt) front back Hlen Hnn) as (l1' & m & Heq & Hperm & Hall).
    rewrite Heq.
    assert (Hsub : forall x, x ∈ l1' -> x ∈ front)
      by (intros x Hx; rewrite <- Hperm; apply elem_of_app; by left).
    assert (Hm : m ∈ front) by (rewrite <- Hperm; apply elem_of_app; right; left).
    apply (IH l1' (m :: back)).
    + apply Permutation_length in Hperm. rewrite length_app in Hperm. simpl in Hperm. lia.
    + intros r Hr. apply Hnn. by apply Hsub.
    + constructor; [done|]. apply Forall_forall. intros y Hy. by apply Hcross.
    + intros x y Hx [->|Hy]%elem_of_cons.
      * rewrite Forall_forall in Hall. by apply Hall.
      * apply Hcross; [by apply Hsub|done].
Qed.

Lemma bubblePass_filter_eq v n (l : list Recommendation) :
  filter (fun r => feq (Savings r) v = true) (bubblePass n l)
  = filter (fun r => feq (Savings r) v = true) l.
Proof.
  revert l. induction n as [|n IH]; intros [|a [|b t]]; simpl; try done.
  destruct (PrimFloat.ltb (Savings a) (Savings b)) eqn:Hab.
  - rewrite !filter_cons, IH, !filter_cons.
    destruct (decide (feq (Savings b) v = true)) as [Hb|Hb],
             (decide (feq (Savings a) v = true)) as [Ha|Ha]; try done.
    unfold feq in *. by rewrite (eqb_eqb_not_ltb _ _ _ Ha Hb) in Hab.
  - by rewrite !(filter_cons _ a), IH.
Qed.

End BubbleSort.

(** X1: [sortRecommendationsBySavings] rearranges its input, and when no
    savings is NaN the result is in descending order of savings: every
    recommendation has savings [>=] those of every later one. *)
Theorem sortRecommendationsBySavings_sorted (l : list optimize.Recommendation) :
  (forall r, r ∈ l -> not_nan (optimize.Savings r) = true) ->
  optimize.sortRecommendationsBySavings l ≡ₚ l /\
  forall i j a b, (i < j)%nat ->
    optimize.sortRecommendationsBySavings l !! i = Some a ->
    optimize.sortRecommendationsBySavings l !! j = Some b ->
    fge (optimize.Savings a) (optimize.Savings b) = true.
Proof.
  intros Hnn. split; [apply sortRecommendationsBySavings_perm|].
  intros i j a b Hij Ha Hb.
  assert (Hs : StronglySorted
    (fun a b => PrimFloat.ltb (optimize.Savings a) (optimize.Savings b) = false)
    (optimize.sortRecommendationsBySavings l)).
  { unfold optimize.sortRecommendationsBySavings.
    destruct l as [|x l']; [constructor|].
    pose proof (bubble_loop (length l') (x :: l') [] eq_refl Hnn) as Hloop.
    rewrite app_nil_r in Hloop. simpl in Hloop |- *. rewrite Nat.sub_0_r.
    apply Hloop; [constructor|]. intros ? ? _ ?%elem_of_nil. done. }
  assert (Hin : forall k r, optimize.sortRecommendationsBySavings l !! k = Some r ->
                  not_nan (optimize.Savings r) = true).
  { intros k r Hk. apply Hnn. rewrite <- (sortRecommendationsBySavings_perm l).
    by eapply list_elem_of_lookup_2. }
  apply not_ltb_fge; eauto.
  by apply (StronglySorted_lookup _ _ i j a b Hs).
Qed.

(** X2: the sort is stable: for every value [v], the recommendations
    whose savings are [==] to [v] come out in the order they went in. *)
Theorem sortRecommendationsBySavings_stable (v : float) (l : list optimize.Recommendation) :
  filter (fun r => feq (optimize.Savings r) v = true) (optimize.sortRecommendationsBySavings l)
  = filter (fun r => feq (optimize.Savings r) v = true) l.
Proof.
  unfold optimize.sortRecommendationsBySavings.
  generalize (seq 0 (length l - 1)). intros idxs. revert l.
  induction idxs as [|i idxs IH]; intros l; simpl; [done|].
  by rewrite IH, bubblePass_filter_eq.
Qed.

Lemma sortRecommendationsBySavings_sorted_witness :
  let l := optimize.rightsizing sample.bigPod sample.hundred
           :: optimize.findUnusedResources optimize.NewOptimizer [sample.gpuNode] in
  optimize.Savings <$> l = [30%float; 52.560000000000002%float] /\
  optimize.Savings <$> optimize.sortRecommendationsBySavings l
  = [52.560000000000002%float; 30%float] /\
  fge (optimize.Savings (optimize.unused optimize.NewOptimizer sample.gpuNode))
      (optimize.Savings (optimize.rightsizing sample.bigPod sample.hundred)) = true.
Proof.
  intros l. split; [reflexivity|]. split; [reflexivity|].
  assert (Hnn : forall r, r ∈ l -> not_nan (optimize.Savings r) = true).
  { intros r Hr. repeat (apply elem_of_cons in Hr as [->|Hr]; [reflexivity|]).
    by apply elem_of_nil in Hr. }
  apply (proj2 (sortRecommendationsBySavings_sorted l Hnn) 0%nat 1%nat
           (optimize.unused optimize.NewOptimizer sample.gpuNode)
           (optimize.rightsizing sample.bigPod sample.hundred)); [lia|reflexivity..].
Defined.

(** ** Arithmetic modulo 2^64 *)

Section Wrap.

Lemma wrap64_decomp a : exists k, wrap64 a = a + 2 ^ 64 * k.
Proof.
  exists (- ((a + 2 ^ 63) / 2 ^ 64)). unfold wrap64.
  pose proof (Z.div_mod (a + 2 ^ 63) (2 ^ 64)). lia.
Qed.

Lemma wrap64_eq a b k : a = b + 2 ^ 64 * k -> wrap64 a = wrap64 b.
Proof.
  intros ->. unfold wrap64. f_equal.
  replace (b + 2 ^ 64 * k + 2 ^ 63) with (b + 2 ^ 63 + k * 2 ^ 64) by lia.
  apply Z_mod_plus_full.
Qed.

Lemma wrap64_small a : - 2 ^ 63 <= a < 2 ^ 63 -> wrap64 a = a.
Proof. intros Ha. unfold wrap64. rewrite Z.mod_small; lia. Qed.

Lemma wrap64_sub_r a b : wrap64 (a - wrap64 b) = wrap64 (a - b).
Proof.
  destruct (wrap64_decomp b) as [k Hk]. apply (wrap64_eq _ _ (- k)). lia.
Qed.

Lemma wrap64_add_r a b : wrap64 (a + wrap64 b) = wrap64 (a + b).
Proof.
  destruct (wrap64_decomp b) as [k Hk]. apply (wrap64_eq _ _ k). lia.
Qed.

End Wrap.

(** ** The GPU analyzer, node by node and as a whole *)

Section AnalyzerFacts.
Import gpu.
Context {Qty : Type} `{QuantityOps Qty}.

Lemma Value_range (q : Qty) : - 2 ^ 63 <= Value q < 2 ^ 63.
Proof. apply wrap64_range. Qed.

Lemma analyzeNode_total_range (node : Node.t Qty) :
  - 2 ^ 63 <= NodeGPU.TotalGPUs (analyzeNode node) < 2 ^ 63.
Proof.
  unfold analyzeNode.
  destruct (Node.Capacity node !! ResourceGPU), (Node.Allocatable node !! ResourceGPU);
    simpl; try apply Value_range; lia.
Qed.

Lemma sumZ_cons x l : sumZ (x :: l) = x + sumZ l.
Proof. reflexivity. Qed.

Lemma addNode_step (st : list NodeGPU.t * Z * Z) (node : Node.t Qty) :
  addNode st node
  = if 0 <? NodeGPU.TotalGPUs (analyzeNode node)
    then (st.1.1 ++ [analyzeNode node],
          wrap64 (st.1.2 + NodeGPU.TotalGPUs (analyzeNode node)),
          wrap64 (st.2 + NodeGPU.AllocatedGPUs (analyzeNode node)))
    else st.
Proof. by destruct st as [[ns total] allocated]. Qed.

Lemma addNode_fold_nodes (nodes : list (Node.t Qty)) st :
  (fold_left addNode nodes st).1.1
  = st.1.1 ++ filter (fun n => 0 < NodeGPU.TotalGPUs n) (analyzeNode <$> nodes).
Proof.
  revert st. induction nodes as [|node nodes IH]; intros st; simpl fold_left.
  - simpl. by rewrite app_nil_r.
  - rewrite IH, addNode_step, fmap_cons, filter_cons.
    destruct (Z.ltb_spec 0 (NodeGPU.TotalGPUs (analyzeNode node))).
    + rewrite decide_True by done. simpl. by rewrite <- app_assoc.
    + by rewrite decide_False by lia.
Qed.

Lemma addNode_fold_total (nodes : list (Node.t Qty)) st :
  wrap64 (fold_left addNode nodes st).1.2
  = wrap64 (st.1.2 + sumZ (NodeGPU.TotalGPUs
              <$> filter (fun n => 0 < NodeGPU.TotalGPUs n) (analyzeNode <$> nodes))).
Proof.
  revert st. induction nodes as [|node nodes IH]; intros st; simpl fold_left.
  - simpl. by rewrite Z.add_0_r.
  - rewrite IH, addNode_step, fmap_cons, filter_cons.
    destruct (Z.ltb_spec 0 (NodeGPU.TotalGPUs (analyzeNode node))).
    + rewrite decide_True by done. rewrite fmap_cons, sumZ_cons. cbn [fst snd].
      rewrite wrap64_add_l. f_equal. lia.
    + by rewrite decide_False by lia.
Qed.

Lemma addNode_fold_allocated (nodes : list (Node.t Qty)) st :
  wrap64 (fold_left addNode nodes st).2
  = wrap64 (st.2 + sumZ (NodeGPU.AllocatedGPUs
              <$> filter (fun n => 0 < NodeGPU.TotalGPUs n) (analyzeNode <$> nodes))).
Proof.
  revert st. induction nodes as [|node nodes IH]; intros st; simpl fold_left.
  - simpl. by rewrite Z.add_0_r.
  - rewrite IH, addNode_step, fmap_cons, filter_cons.
    destruct (Z.ltb_spec 0 (NodeGPU.TotalGPUs (analyzeNode node))).
    + rewrite decide_True by done. rewrite fmap_cons, sumZ_cons. cbn [fst snd].
      rewrite wrap64_add_l. f_equal. lia.
    + by rewrite decide_False by lia.
Qed.

Lemma addNode_allocated_range (nodes : list (Node.t Qty)) st :
  - 2 ^ 63 <= st.2 < 2 ^ 63 ->
  - 2 ^ 63 <= (fold_left addNode nodes st).2 < 2 ^ 63.
Proof.
  revert st. induction nodes as [|node nodes IH]; intros [[ns total] allocated] Hr;
    simpl; [done|].
  apply IH. destruct (0 <? NodeGPU.TotalGPUs (analyzeNode node)); [|done].
  simpl. apply wrap64_range.
Qed.

Lemma addPod_fold (pods : list (Pod.t Qty)) ps :
  fold_left addPod pods ps
  = ps ++ filter (fun p => 0 < PodGPU.GPUCount p) (analyzePod <$> pods).
Proof.
  revert ps. induction pods as [|pod pods IH]; intros ps; simpl fold_left.
  - simpl. by rewrite app_nil_r.
  - rewrite IH, fmap_cons, filter_cons. unfold addPod.
    destruct (Z.ltb_spec 0 (PodGPU.GPUCount (analyzePod pod))).
    + rewrite decide_True by done. by rewrite <- app_assoc.
    + by rewrite decide_False by lia.
Qed.

End AnalyzerFacts.

Section AnalyzerReport.
Import gpu.
Context {Qty : Type} `{QuantityOps Qty}.

Lemma addNode_fold_skip (nodes : list (Node.t Qty)) st :
  Forall (fun node => NodeGPU.TotalGPUs (analyzeNode node) <= 0) nodes ->
  fold_left addNode nodes st = st.
Proof.
  intros Hall. revert st. induction Hall as [|node nodes Hn Hall IH]; intros st; [done|].
  simpl. rewrite addNode_step.
  destruct (Z.ltb_spec 0 (NodeGPU.TotalGPUs (analyzeNode node))); [lia|apply IH].
Qed.

Lemma available_sum (ns : list NodeGPU.t) :
  Forall (fun n => NodeGPU.AllocatedGPUs n
                   = wrap64 (NodeGPU.TotalGPUs n - NodeGPU.AvailableGPUs n)) ns ->
  exists k, sumZ (NodeGPU.TotalGPUs <$> ns) - sumZ (NodeGPU.AllocatedGPUs <$> ns)
            = sumZ (NodeGPU.AvailableGPUs <$> ns) + 2 ^ 64 * k.
Proof.
  induction 1 as [|n ns Hn Hall [k IH]].
  - exists 0. reflexivity.
  - rewrite !fmap_cons, !sumZ_cons, Hn.
    destruct (wrap64_decomp (NodeGPU.TotalGPUs n - NodeGPU.AvailableGPUs n)) as [k' ->].
    exists (k - k'). lia.
Qed.

Lemma generateRecommendations_elem (a : Analysis) (s : string) :
  s ∈ generateRecommendations a <->
  (s = advice.lowUtilization /\
     ((0 <? TotalGPUs a) && PrimFloat.ltb (UtilizationPct a) 50) = true) \/
  (s = advice.highUtilization /\ fgt (UtilizationPct a) 85 = true) \/
  (s = advice.fragmented /\
     (Z.of_nat (length (Nodes a)) / 2
        <? count (fun node => (0 <? NodeGPU.AllocatedGPUs node)
                              && (0 <? NodeGPU.AvailableGPUs node)) (Nodes a)) = true) \/
  (s = advice.noGPUs /\ (TotalGPUs a =? 0) = true) \/
  (s = advice.singleGPUPods /\
     (2 <? count (fun pod => PodGPU.GPUCount pod =? 1) (Pods a)) = true).
Proof.
  unfold generateRecommendations. rewrite !elem_of_app.
  destruct ((0 <? TotalGPUs a) && PrimFloat.ltb (UtilizationPct a) 50),
           (fgt (UtilizationPct a) 85),
           (Z.of_nat (length (Nodes a)) / 2 <? _),
           (TotalGPUs a =? 0),
           (2 <? count _ (Pods a));
    rewrite ?list_elem_of_singleton, ?elem_of_nil; unfold advice.lowUtilization,
      advice.highUtilization, advice.fragmented, advice.noGPUs, advice.singleGPUPods;
    intuition (try discriminate; try congruence).
Qed.

End AnalyzerReport.

Section AnalyzerExtras.
Import gpu FloatOrder.
Context {Qty : Type} `{QuantityOps Qty}.

(** X3: the GPU accounting of one node.  Without the accelerator key in
    the capacity the total is 0; without it in the allocatable map both
    the allocated and the available count are 0, whatever the total; with
    it, allocated and available add up to the total modulo 2^64, and
    exactly when the available count lies between 0 and the total. *)
Theorem analyzeNode_accounting (node : Node.t Qty) :
  (Node.Capacity node !! ResourceGPU = None ->
     NodeGPU.TotalGPUs (analyzeNode node) = 0)
  /\ (Node.Allocatable node !! ResourceGPU = None ->
     NodeGPU.AllocatedGPUs (analyzeNode node) = 0 /\
     NodeGPU.AvailableGPUs (analyzeNode node) = 0)
  /\ (is_Some (Node.Allocatable node !! ResourceGPU) ->
     wrap64 (NodeGPU.AllocatedGPUs (analyzeNode node)
             + NodeGPU.AvailableGPUs (analyzeNode node))
     = NodeGPU.TotalGPUs (analyzeNode node)
     /\ (0 <= NodeGPU.AvailableGPUs (analyzeNode node)
           <= NodeGPU.TotalGPUs (analyzeNode node) ->
         NodeGPU.TotalGPUs (analyzeNode node)
         = NodeGPU.AllocatedGPUs (analyzeNode node)
           + NodeGPU.AvailableGPUs (analyzeNode node)
         /\ 0 <= NodeGPU.AllocatedGPUs (analyzeNode node))).
Proof.
  pose proof (analyzeNode_total_range node) as Hr. unfold analyzeNode in *.
  destruct (Node.Capacity node !! ResourceGPU) as [cap|],
           (Node.Allocatable node !! ResourceGPU) as [al|]; simpl in *;
    repeat split; try done; try (by intros [? ?]); intros; try lia.
  - rewrite wrap64_add_l. rewrite <- (wrap64_small (Value cap)) at 2 by done.
    f_equal. lia.
  - rewrite wrap64_small; pose proof (Value_range al); lia.
  - rewrite wrap64_small; pose proof (Value_range al); lia.
  - rewrite wrap64_add_l. rewrite <- (wrap64_small 0) at 2 by lia. f_equal. lia.
  - rewrite wrap64_small; pose proof (Value_range al); lia.
  - rewrite wrap64_small; pose proof (Value_range al); lia.
Qed.

(** X4: the report of [Analyze] lists, in input order, exactly the nodes
    whose total is above 0 and the pods whose GPU count is above 0; its
    cluster totals are the sums over the listed nodes, and the available
    count is the total minus the allocated count (all modulo 2^64). *)
Theorem Analyze_report (nodes : list (Node.t Qty)) (pods : list (Pod.t Qty)) :
  let a := Analyze nodes pods in
  Nodes a = filter (fun n => 0 < NodeGPU.TotalGPUs n) (analyzeNode <$> nodes)
  /\ Pods a = filter (fun p => 0 < PodGPU.GPUCount p) (analyzePod <$> pods)
  /\ TotalGPUs a = wrap64 (sumZ (NodeGPU.TotalGPUs <$> Nodes a))
  /\ AllocatedGPUs a = wrap64 (sumZ (NodeGPU.AllocatedGPUs <$> Nodes a))
  /\ AvailableGPUs a = wrap64 (TotalGPUs a - AllocatedGPUs a).
Proof.
  unfold Analyze.
  pose proof (addNode_fold_nodes nodes ([], 0, 0)) as Hn.
  pose proof (addNode_fold_total nodes ([], 0, 0)) as Ht.
  pose proof (addNode_fold_allocated nodes ([], 0, 0)) as Ha.
  pose proof (addNode_total_range nodes ([], 0, 0)) as Hrt.
  pose proof (addNode_allocated_range nodes ([], 0, 0)) as Hra.
  destruct (fold_left addNode nodes ([], 0, 0)) as [[ns total] allocated].
  simpl in *. rewrite addPod_fold. subst ns.
  rewrite wrap64_small in Ht by lia. rewrite wrap64_small in Ha by lia.
  by repeat split.
Qed.

(** X5: when every node reports the accelerator in its allocatable map,
    the cluster's [AvailableGPUs] is the sum of the available counts of
    the listed nodes (modulo 2^64). *)
Theorem Analyze_available_is_sum (nodes : list (Node.t Qty)) (pods : list (Pod.t Qty)) :
  Forall (fun node => is_Some (Node.Allocatable node !! ResourceGPU)) nodes ->
  AvailableGPUs (Analyze nodes pods)
  = wrap64 (sumZ (NodeGPU.AvailableGPUs <$> Nodes (Analyze nodes pods))).
Proof.
  intros Hall.
  destruct (Analyze_report nodes pods) as (Hn & _ & Ht & Ha & Hav).
  rewrite Hav, Ht, Ha.
  assert (Hns : Forall (fun n => NodeGPU.AllocatedGPUs n
                   = wrap64 (NodeGPU.TotalGPUs n - NodeGPU.AvailableGPUs n))
                  (Nodes (Analyze nodes pods))).
  { rewrite Hn. apply Forall_forall. intros n Hin.
    apply list_elem_of_filter in Hin as [_ Hin].
    apply list_elem_of_fmap in Hin as (node & -> & Hnode).
    rewrite Forall_forall in Hall. destruct (Hall node Hnode) as [al Hal].
    unfold analyzeNode. rewrite Hal. by destruct (Node.Capacity node !! ResourceGPU). }
  destruct (available_sum _ Hns) as [k Hk].
  destruct (wrap64_decomp (sumZ (NodeGPU.TotalGPUs <$> Nodes (Analyze nodes pods))))
    as [k1 ->].
  destruct (wrap64_decomp (sumZ (NodeGPU.AllocatedGPUs <$> Nodes (Analyze nodes pods))))
    as [k2 ->].
  apply (wrap64_eq _ _ (k + k1 - k2)). lia.
Qed.

(** X6: the low-utilization and the high-utilization advice never appear
    together. *)
Theorem utilization_advice_exclusive (a : Analysis) :
  ~ (advice.lowUtilization ∈ generateRecommendations a
     /\ advice.highUtilization ∈ generateRecommendations a).
Proof.
  rewrite !generateRecommendations_elem.
  intros [[(_ & Hlow)|[(? & _)|[(? & _)|[(? & _)|(? & _)]]]]
          [(? & _)|[(_ & Hhigh)|[(? & _)|[(? & _)|(? & _)]]]]]; try discriminate.
  apply andb_true_iff in Hlow as [_ Hlow]. unfold fgt in Hhigh.
  destruct (ltb_not_nan _ _ Hlow) as [Hp H50].
  destruct (ltb_not_nan _ _ Hhigh) as [H85 _].
  apply ltb_key in Hlow; [|done..]. apply ltb_key in Hhigh; [|done..].
  pose proof (lexlt_trans _ _ _ Hhigh Hlow) as Hbad.
  set (k85 := key (Prim2SF 85)) in Hbad. set (k50 := key (Prim2SF 50)) in Hbad.
  vm_compute in k85, k50. subst k85 k50. unfold lexlt in Hbad. simpl in Hbad. lia.
Qed.

(** X7: a cluster where no node has a GPU total above 0.  The report
    lists no node, all its counts and the utilization are 0, and the
    advice is "No GPU resources detected", followed by the sharing advice
    when more than two pods ask for a single GPU, and nothing else. *)
Theorem Analyze_without_gpu_nodes (nodes : list (Node.t Qty)) (pods : list (Pod.t Qty)) :
  Forall (fun node => NodeGPU.TotalGPUs (analyzeNode node) <= 0) nodes ->
  let a := Analyze nodes pods in
  Nodes a = [] /\ TotalGPUs a = 0 /\ AllocatedGPUs a = 0 /\ AvailableGPUs a = 0
  /\ UtilizationPct a = 0%float
  /\ Recommendations a
     = advice.noGPUs
       :: (if 2 <? count (fun pod => PodGPU.GPUCount pod =? 1) (Pods a)
           then [advice.singleGPUPods] else []).
Proof.
  intros Hall. unfold Analyze. rewrite (addNode_fold_skip nodes _ Hall).
  repeat split.
Qed.

End AnalyzerExtras.

(** ** The printers *)

Section PrinterExtras.
Import gpu visualize.
Context {Qty : Type} `{QuantityOps Qty}.

(** X8: in the node table printed for a report of [Analyze], every row
    belongs to a node with a total above 0, so its utilization is the
    quotient [allocated / total * 100] and the divisor is not zero. *)
Theorem PrintGPUTable_rows (nodes : list (Node.t Qty)) (pods : list (Pod.t Qty))
    (rows : list (NodeGPU.t * float)) (node : NodeGPU.t) (util : float) :
  NodeTable rows ∈ PrintGPUTable (Analyze nodes pods) ->
  (node, util) ∈ rows ->
  0 < NodeGPU.TotalGPUs node
  /\ PrimFloat.is_zero (float64_of_int (NodeGPU.TotalGPUs node)) = false
  /\ util = PrimFloat.mul
              (PrimFloat.div (float64_of_int (NodeGPU.AllocatedGPUs node))
                             (float64_of_int (NodeGPU.TotalGPUs node))) 100.
Proof.
  intros Hblock Hrow.
  destruct (Analyze_report nodes pods) as (Hn & _).
  assert (Hrows : rows = (fun node => (node, nodeUtil node)) <$> Nodes (Analyze nodes pods)).
  { unfold PrintGPUTable in Hblock. case_bool_decide.
    - apply list_elem_of_singleton in Hblock. discriminate.
    - apply elem_of_cons in Hblock as [Heq|Hblock]; [by injection Heq|].
      case_bool_decide;
        repeat (apply elem_of_cons in Hblock as [Hblock|Hblock]; [discriminate Hblock|]);
        by apply elem_of_nil in Hblock. }
  subst rows. apply list_elem_of_fmap in Hrow as (n & Heq & Hin).
  injection Heq as -> ->. rewrite Hn in Hin.
  apply list_elem_of_filter in Hin as [Hpos Hin].
  apply list_elem_of_fmap in Hin as (nd & -> & _).
  pose proof (analyzeNode_total_range nd) as Hr.
  split; [done|]. split; [apply float64_of_int_nonzero; lia|].
  unfold nodeUtil. by destruct (Z.ltb_spec 0 (NodeGPU.TotalGPUs (analyzeNode nd))); [|lia].
Qed.

(** X9: what [PrintGPUTable] leaves out.  The pod table is printed only
    when the report lists a node, and the summary only when it lists a
    node and a pod; for a cluster where no node has a GPU total above 0
    the output is the single "no GPU nodes" line, whatever the pods
    request. *)
Theorem PrintGPUTable_blocks (nodes : list (Node.t Qty)) (pods : list (Pod.t Qty))
    (a : Analysis) :
  (forall rows, PodTable rows ∈ PrintGPUTable a -> Nodes a <> [] /\ Pods a <> [])
  /\ ((exists t al av u, GPUSummary t al av u ∈ PrintGPUTable a)
      <-> Nodes a <> [] /\ Pods a <> [])
  /\ (Forall (fun node => NodeGPU.TotalGPUs (analyzeNode node) <= 0) nodes ->
      PrintGPUTable (Analyze nodes pods) = [NoGPUNodes]).
Proof.
  assert (Hlen : forall {A} (l : list A), length l = 0%nat <-> l = [])
    by (intros A l; apply length_zero_iff_nil).
  split; [|split].
  - intros rows Hin. unfold PrintGPUTable in Hin.
    repeat case_bool_decide; rewrite ?Hlen in *;
      repeat (apply elem_of_cons in Hin as [Hin|Hin]; [try discriminate Hin|]);
      try (by apply elem_of_nil in Hin); done.
  - unfold PrintGPUTable. split.
    + intros (t & al & av & u & Hin).
      repeat case_bool_decide; rewrite ?Hlen in *;
        repeat (apply elem_of_cons in Hin as [Hin|Hin]; [try discriminate Hin|]);
        try (by apply elem_of_nil in Hin); done.
    + intros [Hn Hp]. rewrite <- Hlen in Hn, Hp.
      rewrite !bool_decide_eq_false_2 by done.
      eexists _, _, _, _. right. right. left.
  - intros Hall. destruct (Analyze_without_gpu_nodes nodes pods Hall) as (Hn & _).
    unfold PrintGPUTable. rewrite Hn. reflexivity.
Qed.

(** X10: the status column of [PrintNodeTable] is "Not Ready" exactly when
    some condition of type "Ready" has a status other than "True", and
    "Ready" otherwise: a node with no "Ready" condition at all is shown as
    ready. *)
Theorem nodeStatus_not_ready (conditions : list NodeCondition) :
  (nodeStatus conditions = "Not Ready" <->
     exists c, c ∈ conditions /\ ConditionType c = NodeReady
               /\ ConditionStatus c <> ConditionTrue)
  /\ (nodeStatus conditions = "Ready" \/ nodeStatus conditions = "Not Ready").
Proof.
  unfold nodeStatus.
  assert (Hgen : forall (status : string),
    (status = "Ready" \/ status = "Not Ready") ->
    let r := fold_left (fun status condition =>
      if bool_decide (ConditionType condition = NodeReady)
         && negb (bool_decide (ConditionStatus condition = ConditionTrue))
      then "Not Ready" else status) conditions status in
    (r = "Not Ready" <-> status = "Not Ready" \/
       exists c, c ∈ conditions /\ ConditionType c = NodeReady
                 /\ ConditionStatus c <> ConditionTrue)
    /\ (r = "Ready" \/ r = "Not Ready")).
  { induction conditions as [|c cs IH]; intros status Hst; simpl.
    - split; [|done]. split; [by left|]. intros [?|(c & Hc & _)]; [done|].
      by apply elem_of_nil in Hc.
    - destruct (bool_decide (ConditionType c = NodeReady)
                && negb (bool_decide (ConditionStatus c = ConditionTrue))) eqn:Hc.
      + destruct (IH "Not Ready" (or_intror eq_refl)) as [Hiff Hor].
        split; [|done]. split; [|intros _; apply Hiff; by left].
        intros _. right. exists c. apply andb_true_iff in Hc as [Ht Hs].
        apply bool_decide_eq_true in Ht. apply negb_true_iff, bool_decide_eq_false in Hs.
        split; [left|done].
      + destruct (IH status Hst) as [Hiff Hor]. split; [|done].
        rewrite Hiff. split; (intros [?|(c' & Hc' & Ht & Hs)]; [by left|right]).
        * exists c'. split; [by right|done].
        * apply elem_of_cons in Hc' as [->|Hc']; [|by exists c'].
          rewrite andb_false_iff, bool_decide_eq_false, negb_false_iff,
            bool_decide_eq_true in Hc. by destruct Hc as [Hc|Hc]; [destruct Hc|destruct Hs]. }
  destruct (Hgen "Ready" (or_introl eq_refl)) as [Hiff Hor].
  split; [|done]. rewrite Hiff. split; [intros [?|?]; [discriminate|done]|by right].
Qed.

End PrinterExtras.

(** ** GPU counts across the packages *)

Section GPUCounts.
Import cost.
Context {Qty : Type} `{QuantityOps Qty}.

Lemma requestedGPUs_fold (cs : list (Container Qty)) n :
  wrap64 (fold_left (fun n c =>
    match Requests (Resources c) !! ResourceGPU with
    | Some gpu => wrap64 (n + Value gpu)
    | None => n
    end) cs n)
  = wrap64 (n + unitsOf ((fun c => Requests (Resources c)) <$> cs)).
Proof.
  revert n. induction cs as [|c cs IH]; intros n.
  - simpl. f_equal. unfold unitsOf. simpl. lia.
  - simpl fold_left. rewrite IH, fmap_cons, unitsOf_cons.
    destruct (Requests (Resources c) !! ResourceGPU); [|done].
    rewrite wrap64_add_l. f_equal. lia.
Qed.

Lemma requestedGPUs_fold_range (cs : list (Container Qty)) n :
  wrap64 n = n ->
  wrap64 (fold_left (fun n c =>
    match Requests (Resources c) !! ResourceGPU with
    | Some gpu => wrap64 (n + Value gpu)
    | None => n
    end) cs n)
  = fold_left (fun n c =>
    match Requests (Resources c) !! ResourceGPU with
    | Some gpu => wrap64 (n + Value gpu)
    | None => n
    end) cs n.
Proof.
  revert n. induction cs as [|c cs IH]; intros n Hn; simpl; [done|].
  apply IH. destruct (Requests (Resources c) !! ResourceGPU); [|done].
  apply wrap64_idem.
Qed.

Lemma unitsOf_limits_eq_requests (cs : list (Container Qty)) :
  (forall c, c ∈ cs ->
     Limits (Resources c) !! ResourceGPU = Requests (Resources c) !! ResourceGPU) ->
  unitsOf ((fun c => Limits (Resources c)) <$> cs)
  = unitsOf ((fun c => Requests (Resources c)) <$> cs).
Proof.
  induction cs as [|c cs IH]; intros Hall; [done|].
  rewrite !fmap_cons, !unitsOf_cons, (Hall c) by left.
  rewrite IH; [done|]. intros c' Hc'. apply Hall. by right.
Qed.

(** X11: a pod whose containers carry the accelerator with the same
    quantity in requests and in limits (what Kubernetes asks for extended
    resources) is counted, and billed, for twice the GPUs it requests. *)
Theorem calculatePodCost_counts_gpus_twice (c : Calculator) (pod : Pod.t Qty) :
  (forall ct, ct ∈ Pod.Containers pod ->
     Limits (Resources ct) !! ResourceGPU = Requests (Resources ct) !! ResourceGPU) ->
  GPUCount (calculatePodCost c pod) = wrap64 (2 * unitsOf (requestsOf pod))
  /\ GPUCost (calculatePodCost c pod)
     = CalculateGPUCost (pricing c) (wrap64 (2 * unitsOf (requestsOf pod))).
Proof.
  intros Hall.
  assert (Hcount : GPUCount (calculatePodCost c pod) = wrap64 (2 * unitsOf (requestsOf pod))).
  { simpl. rewrite gpuCount_gpuUnits. unfold gpuUnits, limitsOf, requestsOf.
    rewrite (unitsOf_limits_eq_requests _ Hall). f_equal. lia. }
  split; [done|]. simpl in *. by rewrite Hcount.
Qed.

(** X12: the optimizer's GPU count of a pod is the sum of its requests
    only, and the calculator's count is that plus the sum of the limits
    (modulo 2^64); they agree for a pod without the accelerator among its
    limits. *)
Theorem requestedGPUs_is_request_part (c : Calculator) (pod : Pod.t Qty) :
  optimize.requestedGPUs pod = wrap64 (unitsOf (requestsOf pod))
  /\ GPUCount (calculatePodCost c pod)
     = wrap64 (optimize.requestedGPUs pod + unitsOf (limitsOf pod))
  /\ ((forall ct, ct ∈ Pod.Containers pod -> Limits (Resources ct) !! ResourceGPU = None) ->
      GPUCount (calculatePodCost c pod) = optimize.requestedGPUs pod).
Proof.
  assert (Hreq : optimize.requestedGPUs pod = wrap64 (unitsOf (requestsOf pod))).
  { unfold optimize.requestedGPUs, requestsOf.
    rewrite <- requestedGPUs_fold_range by done. by rewrite requestedGPUs_fold. }
  assert (Hcount : GPUCount (calculatePodCost c pod)
                   = wrap64 (optimize.requestedGPUs pod + unitsOf (limitsOf pod))).
  { simpl. rewrite gpuCount_gpuUnits, Hreq. unfold gpuUnits. by rewrite wrap64_add_l. }
  split; [done|]. split; [done|].
  intros Hnone. rewrite Hcount.
  assert (Hl : unitsOf (limitsOf pod) = 0).
  { unfold limitsOf. induction (Pod.Containers pod) as [|ct cs IH]; [done|].
    rewrite fmap_cons, unitsOf_cons, (Hnone ct) by left.
    apply IH. intros ct' Hct'. apply Hnone. by right. }
  rewrite Hl, Z.add_0_r, Hreq. apply wrap64_idem.
Qed.

(** X13: with a [sort.Slice] that meets its contract, the cost entries
    [CalculatePodCosts] returns do not depend on the order of the pods:
    rearranging the input rearranges the result. *)
Theorem CalculatePodCosts_perm_invariant `{S : sort.Slice} (HS : sort.SliceSpec S)
    (c : Calculator) (pods pods' : list (Pod.t Qty)) (nodes nodes' : list (Node.t Qty)) :
  pods ≡ₚ pods' ->
  CalculatePodCosts c pods nodes ≡ₚ CalculatePodCosts c pods' nodes'.
Proof.
  intros Hp. rewrite !(CalculatePodCosts_perm HS). by rewrite Hp.
Qed.

End GPUCounts.

(** ** The commands *)

Section CommandExtras.
Import cost cmd.
Context {Qty : Type} `{QuantityOps Qty}.

Lemma take_length_take {A} n (l : list A) : take n l = take (length (take n l)) l.
Proof.
  rewrite length_take. destruct (Nat.le_gt_cases n (length l)).
  - by rewrite Nat.min_l.
  - rewrite Nat.min_r by lia. by rewrite firstn_all, take_ge by lia.
Qed.

Lemma CalculatePodCosts_sorted_lookup `{S : sort.Slice} (HS : sort.SliceSpec S)
    (c : Calculator) (pods : list (Pod.t Qty)) (nodes : list (Node.t Qty)) i j a b :
  (forall pod, pod ∈ pods -> Pod.Phase pod = PodRunning ->
     not_nan (TotalCost (calculatePodCost c pod)) = true) ->
  (i < j)%nat ->
  CalculatePodCosts c pods nodes !! i = Some a ->
  CalculatePodCosts c pods nodes !! j = Some b ->
  fge (TotalCost a) (TotalCost b) = true.
Proof.
  intros Hn Hij Ha Hb.
  assert (Hnn : forall k pc, CalculatePodCosts c pods nodes !! k = Some pc ->
                  not_nan (TotalCost pc) = true).
  { intros k pc Hk. apply list_elem_of_lookup_2 in Hk.
    apply (CalculatePodCosts_elem HS) in Hk as (pod & Hin & Hr & ->). by apply Hn. }
  assert (Hsorted : sort.sorted_by byTotalCostDesc (CalculatePodCosts c pods nodes)).
  { apply sort.slice_sorted. apply byTotalCostDesc_strict_weak.
    intros pc (pod & -> & Hin)%list_elem_of_fmap.
    apply list_elem_of_filter in Hin as [Hr Hin]. apply Hn; [done|].
    by apply isRunning_true. }
  specialize (Hsorted i j a b Hij Ha Hb). unfold byTotalCostDesc, fgt in Hsorted.
  apply not_ltb_fge; eauto.
Qed.

Lemma CalculatePodCosts_none_running `{S : sort.Slice} (HS : sort.SliceSpec S)
    (c : Calculator) (pods : list (Pod.t Qty)) (nodes : list (Node.t Qty)) :
  Forall (fun pod => Pod.Phase pod <> PodRunning) pods ->
  CalculatePodCosts c pods nodes = [].
Proof.
  intros Hall. apply Permutation_nil_r. rewrite (CalculatePodCosts_perm HS).
  induction Hall as [|pod pods Hp Hall IH]; [done|].
  rewrite filter_cons_False; [done|]. by rewrite isRunning_true.
Qed.

(** X14: the [--top] cut of [runAnalyze].  What is shown is a prefix of
    the sorted report: the whole report when [topN] is not above 0,
    otherwise its first [topN] entries (all of them when there are
    fewer); and when no total is NaN every entry shown costs at least as
    much as every entry left out. *)
Theorem runAnalyze_top `{S : sort.Slice} (HS : sort.SliceSpec S) (topN : Z)
    (pods : list (Pod.t Qty)) (nodes : list (Node.t Qty)) :
  (forall pod, pod ∈ pods -> Pod.Phase pod = PodRunning ->
     not_nan (TotalCost (calculatePodCost NewCalculator pod)) = true) ->
  let all := CalculatePodCosts NewCalculator pods nodes in
  let shown := runAnalyze topN pods nodes in
  all = shown ++ drop (length shown) all
  /\ length shown
     = (if 0 <? topN then Nat.min (Z.to_nat topN) (length all) else length all)
  /\ forall a b, a ∈ shown -> b ∈ drop (length shown) all ->
       fge (TotalCost a) (TotalCost b) = true.
Proof.
  intros Hn all shown.
  assert (Hshown : shown = take (length shown) all).
  { unfold shown, runAnalyze, applyTop. fold all.
    destruct ((0 <? topN) && (topN <? Z.of_nat (length all))).
    - apply take_length_take.
    - by rewrite firstn_all. }
  split; [|split].
  - rewrite Hshown at 1. by rewrite take_drop.
  - unfold shown, runAnalyze, applyTop. fold all.
    destruct (Z.ltb_spec 0 topN), (Z.ltb_spec topN (Z.of_nat (length all))); simpl;
      rewrite ?length_take; lia.
  - intros a b Ha Hb. rewrite Hshown in Ha.
    apply list_elem_of_lookup in Ha as [i Hi]. apply list_elem_of_lookup in Hb as [j Hj].
    apply lookup_take_Some in Hi as [Hi Hlt]. rewrite lookup_drop in Hj.
    apply (CalculatePodCosts_sorted_lookup HS NewCalculator pods nodes
             i (length shown + j) a b); [done|lia|done..].
Qed.

(** X15: the summary of [runAnalyze].  The pod count it prints is the
    number of running pods that pass the [--top] cut; and when no pod is
    running all totals are 0 and both percentages, quotients by the total
    cost taken without a check, are NaN. *)
Theorem printSummary_of_runAnalyze `{S : sort.Slice} (HS : sort.SliceSpec S) (topN : Z)
    (pods : list (Pod.t Qty)) (nodes : list (Node.t Qty)) :
  let running := length (filter (fun pod => Pod.isRunning pod = true) pods) in
  cmd.pods (printSummary (runAnalyze topN pods nodes))
  = Z.of_nat (if 0 <? topN then Nat.min (Z.to_nat topN) running else running)
  /\ (Forall (fun pod => Pod.Phase pod <> PodRunning) pods ->
      printSummary (runAnalyze topN pods nodes)
      = {| monthlyCost := 0; cmd.pods := 0; gpus := None;
           cpuCost := 0; cpuPct := nan; memoryCost := 0; memoryPct := nan |}).
Proof.
  intros running. split.
  - assert (Hlen : length (CalculatePodCosts NewCalculator pods nodes) = running).
    { rewrite (Permutation_length (CalculatePodCosts_perm HS _ _ _)).
      by rewrite length_fmap. }
    simpl. f_equal. unfold runAnalyze, applyTop. rewrite Hlen.
    destruct (Z.ltb_spec 0 topN), (Z.ltb_spec topN (Z.of_nat running)); simpl;
      rewrite ?length_take, ?Hlen; lia.
  - intros Hall. unfold runAnalyze.
    rewrite (CalculatePodCosts_none_running HS _ _ _ Hall).
    unfold applyTop.
    destruct ((0 <? topN) && (topN <? Z.of_nat (length [])))%Z; rewrite ?take_nil;
      reflexivity.
Qed.

Lemma sum_of_zero_totals (costs : list PodCost) t s :
  Prim2SF t = S754_zero s ->
  Forall (fun c => exists s', Prim2SF (TotalCost c) = S754_zero s') costs ->
  exists s', Prim2SF (fold_left (fun t c => PrimFloat.add t (TotalCost c)) costs t)
             = S754_zero s'.
Proof.
  intros Ht Hall. revert t s Ht.
  induction Hall as [|c costs [sc Hc] Hall IH]; intros t s Ht; simpl; [by exists s|].
  assert (Hsum : exists s', Prim2SF (PrimFloat.add t (TotalCost c)) = S754_zero s').
  { rewrite FloatAxioms.add_spec, Ht, Hc. simpl. destruct s, sc; eauto. }
  destruct Hsum as [s' Hs']. by apply (IH _ s').
Qed.

(** X16: [calculateSavingsPercentage] divides only by a total that is
    not zero: when every cost total is a zero (no cost entries at all, or
    pods that declare nothing) it returns 0 for any savings. *)
Theorem calculateSavingsPercentage_zero_total (costs : list PodCost) (savings : float) :
  Forall (fun c => exists s, Prim2SF (TotalCost c) = S754_zero s) costs ->
  calculateSavingsPercentage costs savings = 0%float.
Proof.
  intros Hall. unfold calculateSavingsPercentage.
  destruct (sum_of_zero_totals costs 0%float false eq_refl Hall) as [s Hs].
  by rewrite (feq_zero _ s Hs).
Qed.

(** X17: [getNamespace] yields the empty namespace, which stands for all
    namespaces, exactly when the all-namespaces flag is set; otherwise it
    is the namespace flag, or "default" when that is empty. *)
Theorem getNamespace_empty_iff (allNamespaces : bool) (namespace : string) :
  (getNamespace allNamespaces namespace = "" <-> allNamespaces = true)
  /\ (allNamespaces = false -> namespace <> "" ->
      getNamespace allNamespaces namespace = namespace)
  /\ (allNamespaces = false -> getNamespace allNamespaces "" = "default").
Proof.
  unfold getNamespace. destruct allNamespaces; repeat split; try done.
  - case_bool_decide; [|discriminate]. intros Heq. by subst.
  - intros _ Hne. by rewrite bool_decide_eq_true_2.
Qed.

End CommandExtras.

(** ** More on the recommendation engine *)

Section OptimizerExtras.
Import cost optimize.
Context {Qty : Type} `{QuantityOps Qty}.

Lemma hasRequests_true (pod : Pod.t Qty) :
  hasRequests pod = true <->
  exists c, c ∈ Pod.Containers pod /\ Requests (Resources c) <> ∅.
Proof.
  unfold hasRequests. rewrite existsb_exists. split.
  - intros (c & Hc & Hs). exists c. split; [by apply list_elem_of_In|].
    apply bool_decide_eq_true in Hs. intros Hempty. rewrite Hempty, map_size_empty in Hs. lia.
  - intros (c & Hc & Hne). exists c. split; [by apply list_elem_of_In|].
    apply bool_decide_eq_true. apply map_size_non_empty_iff in Hne. lia.
Qed.

(** X18: [findPodsWithoutRequests] returns at most one recommendation,
    with savings 0.  It returns none exactly when every running pod has a
    container with a non-empty request map; a running pod with no
    containers, or with limits only, makes it speak. *)
Theorem findPodsWithoutRequests_spec (pods : list (Pod.t Qty)) :
  (findPodsWithoutRequests pods = [] <->
     forall pod, pod ∈ pods -> Pod.Phase pod = PodRunning ->
       exists c, c ∈ Pod.Containers pod /\ Requests (Resources c) <> ∅)
  /\ (length (findPodsWithoutRequests pods) <= 1)%nat
  /\ (forall r, r ∈ findPodsWithoutRequests pods ->
        Savings r = 0%float /\ Priority r = "Medium" /\ Category r = "Best Practice").
Proof.
  unfold findPodsWithoutRequests.
  set (missing := List.filter (fun pod => Pod.isRunning pod && negb (hasRequests pod)) pods).
  assert (Hmissing : missing = [] <->
    forall pod, pod ∈ pods -> Pod.Phase pod = PodRunning ->
      exists c, c ∈ Pod.Containers pod /\ Requests (Resources c) <> ∅).
  { split.
    - intros Hnil pod Hin Hrun. apply hasRequests_true.
      destruct (hasRequests pod) eqn:Hhas; [done|].
      assert (Hm : In pod missing).
      { apply filter_In. split; [by apply list_elem_of_In|].
        apply isRunning_true in Hrun. by rewrite Hrun, Hhas. }
      rewrite Hnil in Hm. destruct Hm.
    - intros Hall. destruct missing as [|pod rest] eqn:Hm; [done|].
      assert (Hin : In pod missing) by (rewrite Hm; left; done).
      apply filter_In in Hin as [Hin Hcond]. apply andb_true_iff in Hcond as [Hrun Hno].
      apply list_elem_of_In in Hin. apply isRunning_true in Hrun.
      pose proof (proj2 (hasRequests_true pod) (Hall pod Hin Hrun)) as Hhas.
      by rewrite Hhas in Hno. }
  split; [|split].
  - rewrite <- Hmissing. case_bool_decide as Hlen.
    + split; [discriminate|]. intros Hnil. rewrite Hnil in Hlen. simpl in Hlen. lia.
    + split; [|done]. intros _. destruct missing; [done|]. simpl in Hlen. lia.
  - case_bool_decide; simpl; lia.
  - intros r. case_bool_decide; [|by intros ?%elem_of_nil].
    by intros ->%list_elem_of_singleton.
Qed.

(** X19: for a node without the accelerator in its capacity the
    optimizer's estimate and the calculator's node cost are [==], given
    the same prices, a finite GPU rate and a CPU-and-memory cost that is
    not NaN. *)
Theorem estimateNodeCost_matches_without_gpu (c : Calculator) (o : Optimizer)
    (node : Node.t Qty) :
  cost.pricing c = optimize.pricing o ->
  Node.Capacity node !! ResourceGPU = None ->
  finite64 (GPUHourlyCost (optimize.pricing o)) = true ->
  not_nan (estimateNodeCost o node) = true ->
  feq (CalculateNodeCost c node) (estimateNodeCost o node) = true.
Proof.
  intros Hp Hcap Hfin Hnn. unfold CalculateNodeCost, estimateNodeCost in *.
  rewrite Hcap, Hp.
  assert (Hz : Prim2SF 0%float = S754_zero false) by reflexivity.
  assert (Hh : finite64 (hoursPerMonth (F := float)) = true) by reflexivity.
  destruct (mul_zero_l _ _ _ Hz Hfin) as [s1 H1].
  destruct (mul_zero_l _ _ _ H1 Hh) as [s2 H2].
  by apply (add_zero_r _ _ s2).
Qed.

Lemma join_imap_nil {A B} (f : nat -> A -> list B) (l : list A) :
  (forall i x, x ∈ l -> f i x = []) -> mjoin (imap f l) = [].
Proof.
  revert f. induction l as [|x l IH]; intros f Hf; [done|].
  rewrite imap_cons. simpl. rewrite (Hf 0%nat x) by left. simpl.
  apply IH. intros i y Hy. apply Hf. by right.
Qed.

(** X20: pods that are not running never produce a recommendation: when
    no pod is running, the optimizer returns the node recommendations
    only, sorted, whatever the cost sequence; with no nodes either it
    returns nothing. *)
Theorem Analyze_without_running_pods (o : Optimizer) (pods : list (Pod.t Qty))
    (nodes : list (Node.t Qty)) (costs : list PodCost) :
  Forall (fun pod => Pod.Phase pod <> PodRunning) pods ->
  Analyze o pods nodes costs = sortRecommendationsBySavings (findUnusedResources o nodes)
  /\ Analyze o pods [] costs = [].
Proof.
  intros Hall. rewrite Forall_forall in Hall.
  assert (Hnot : forall pod, pod ∈ pods -> Pod.isRunning pod = false).
  { intros pod Hin. apply not_true_iff_false. rewrite isRunning_true. by apply Hall. }
  assert (Hover : findOverProvisionedPods pods costs = []).
  { apply join_imap_nil. intros i pod Hin. unfold overProvisionedAt. by rewrite Hnot. }
  assert (Hgpu : findExpensiveGPUUsage pods costs = []).
  { apply join_imap_nil. intros i pod Hin. unfold expensiveGPUAt. by rewrite Hnot. }
  assert (Hreq : findPodsWithoutRequests pods = []).
  { unfold findPodsWithoutRequests.
    assert (Hf : List.filter (fun pod => Pod.isRunning pod && negb (hasRequests pod)) pods = []).
    { clear -Hnot. induction pods as [|pod pods IH]; [done|]. simpl.
      rewrite (Hnot pod) by left. simpl. apply IH. intros p Hp. apply Hnot. by right. }
    by rewrite Hf. }
  unfold Analyze. rewrite Hover, Hgpu, Hreq. simpl. rewrite app_nil_r.
  split; [done|]. reflexivity.
Qed.

End OptimizerExtras.

(** ** The properties above on the sample objects *)

Lemma analyzeNode_accounting_witness :
  gpu.NodeGPU.TotalGPUs (gpu.analyzeNode sample.busyGPUNode)
  = gpu.NodeGPU.AllocatedGPUs (gpu.analyzeNode sample.busyGPUNode)
    + gpu.NodeGPU.AvailableGPUs (gpu.analyzeNode sample.busyGPUNode)
  /\ 0 <= gpu.NodeGPU.AllocatedGPUs (gpu.analyzeNode sample.busyGPUNode).
Proof.
  apply (proj2 (proj2 (analyzeNode_accounting sample.busyGPUNode))).
  - by eexists.
  - vm_compute. split; discriminate.
Defined.

Lemma Analyze_available_is_sum_witness :
  Forall (fun node : Node.t Z => is_Some (Node.Allocatable node !! ResourceGPU))
    [sample.busyGPUNode; sample.gpuNode]
  /\ gpu.AvailableGPUs (gpu.Analyze [sample.busyGPUNode; sample.gpuNode] [fixture.gpuPod])
     = wrap64 (sumZ (gpu.NodeGPU.AvailableGPUs
                <$> gpu.Nodes (gpu.Analyze [sample.busyGPUNode; sample.gpuNode]
                                 [fixture.gpuPod]))).
Proof.
  assert (Hall : Forall (fun node : Node.t Z => is_Some (Node.Allocatable node !! ResourceGPU))
                   [sample.busyGPUNode; sample.gpuNode]).
  { repeat constructor; by eexists. }
  split; [exact Hall|].
  exact (Analyze_available_is_sum [sample.busyGPUNode; sample.gpuNode] [fixture.gpuPod] Hall).
Defined.

Lemma Analyze_without_gpu_nodes_witness :
  gpu.Recommendations (gpu.Analyze [fixture.plainNode] [fixture.gpuPod]) = [advice.noGPUs]
  /\ gpu.UtilizationPct (gpu.Analyze [fixture.plainNode] [fixture.gpuPod]) = 0%float.
Proof.
  assert (Hall : Forall (fun node : Node.t Z =>
                   gpu.NodeGPU.TotalGPUs (gpu.analyzeNode node) <= 0) [fixture.plainNode]).
  { repeat constructor. vm_compute. discriminate. }
  destruct (Analyze_without_gpu_nodes [fixture.plainNode] [fixture.gpuPod] Hall)
    as (_ & _ & _ & _ & Hu & Hr).
  split; [exact Hr|exact Hu].
Defined.

Lemma PrintGPUTable_rows_witness :
  0 < gpu.NodeGPU.TotalGPUs (gpu.analyzeNode sample.busyGPUNode)
  /\ PrimFloat.is_zero (float64_of_int (gpu.NodeGPU.TotalGPUs
                                           (gpu.analyzeNode sample.busyGPUNode))) = false
  /\ 75%float
     = PrimFloat.mul
         (PrimFloat.div
            (float64_of_int (gpu.NodeGPU.AllocatedGPUs (gpu.analyzeNode sample.busyGPUNode)))
            (float64_of_int (gpu.NodeGPU.TotalGPUs (gpu.analyzeNode sample.busyGPUNode))))
         100.
Proof.
  apply (PrintGPUTable_rows [sample.busyGPUNode] [fixture.gpuPod]
           [(gpu.analyzeNode sample.busyGPUNode, 75%float)]).
  - vm_compute. left.
  - left.
Defined.

Lemma PrintGPUTable_blocks_witness :
  visualize.PrintGPUTable (gpu.Analyze [fixture.plainNode] [fixture.gpuPod])
  = [visualize.NoGPUNodes]
  /\ gpu.PodGPU.GPUCount <$> gpu.Pods (gpu.Analyze [fixture.plainNode] [fixture.gpuPod]) = [2].
Proof.
  split; [|reflexivity].
  apply (proj2 (proj2 (PrintGPUTable_blocks [fixture.plainNode] [fixture.gpuPod]
                         (gpu.Analyze [fixture.plainNode] [fixture.gpuPod])))).
  repeat constructor. vm_compute. discriminate.
Defined.

Lemma calculatePodCost_counts_gpus_twice_witness :
  optimize.requestedGPUs fixture.gpuPod = 1
  /\ cost.GPUCount (cost.calculatePodCost cost.NewCalculator fixture.gpuPod) = 2
  /\ cost.GPUCost (cost.calculatePodCost cost.NewCalculator fixture.gpuPod) = 1314%float.
Proof.
  split; [reflexivity|].
  assert (Hall : forall ct, ct ∈ Pod.Containers fixture.gpuPod ->
            Limits (Resources ct) !! ResourceGPU = Requests (Resources ct) !! ResourceGPU).
  { intros ct Hct. apply list_elem_of_singleton in Hct. by subst ct. }
  destruct (calculatePodCost_counts_gpus_twice cost.NewCalculator fixture.gpuPod Hall)
    as [Hcount Hcost].
  split; [rewrite Hcount|rewrite Hcost]; reflexivity.
Defined.

Lemma requestedGPUs_is_request_part_witness :
  cost.GPUCount (cost.calculatePodCost cost.NewCalculator sample.bigPod)
  = optimize.requestedGPUs sample.bigPod.
Proof.
  apply (proj2 (proj2 (requestedGPUs_is_request_part cost.NewCalculator sample.bigPod))).
  intros ct Hct. apply list_elem_of_singleton in Hct. by subst ct.
Defined.

Lemma CalculatePodCosts_perm_invariant_witness :
  sort.SliceSpec sort.goInsertion /\
  cost.CalculatePodCosts (S := sort.goInsertion) cost.NewCalculator
    [sample.webPod; sample.bigPod] []
  ≡ₚ cost.CalculatePodCosts (S := sort.goInsertion) cost.NewCalculator
    [sample.bigPod; sample.webPod] [sample.gpuNode].
Proof.
  split; [exact goInsertion_spec|].
  apply (CalculatePodCosts_perm_invariant goInsertion_spec). apply Permutation_swap.
Defined.

Lemma runAnalyze_top_witness :
  cost.Name <$> cmd.runAnalyze (S := sort.goInsertion) 1
                  [sample.pendingPod; sample.webPod; sample.bigPod] [] = ["big"]
  /\ length (cmd.runAnalyze (S := sort.goInsertion) 1
               [sample.pendingPod; sample.webPod; sample.bigPod] []) = 1%nat.
Proof.
  split; [reflexivity|].
  assert (Hnn : forall pod, pod ∈ [sample.pendingPod; sample.webPod; sample.bigPod] ->
            Pod.Phase pod = PodRunning ->
            not_nan (cost.TotalCost (cost.calculatePodCost cost.NewCalculator pod)) = true).
  { intros pod Hin _.
    repeat (apply elem_of_cons in Hin as [->|Hin]; [reflexivity|]).
    by apply elem_of_nil in Hin. }
  destruct (runAnalyze_top goInsertion_spec 1
              [sample.pendingPod; sample.webPod; sample.bigPod] [] Hnn) as (_ & Hlen & _).
  rewrite Hlen. reflexivity.
Defined.

Lemma printSummary_of_runAnalyze_witness :
  cmd.cpuPct (cmd.printSummary (cmd.runAnalyze (S := sort.goInsertion) 0
                                  [sample.pendingPod] [])) = nan
  /\ cmd.pods (cmd.printSummary (cmd.runAnalyze (S := sort.goInsertion) 0
                                   [sample.pendingPod] [])) = 0.
Proof.
  assert (Hall : Forall (fun pod : Pod.t Z => Pod.Phase pod <> PodRunning)
                   [sample.pendingPod]).
  { repeat constructor. discriminate. }
  rewrite (proj2 (printSummary_of_runAnalyze goInsertion_spec 0 [sample.pendingPod] []) Hall).
  split; reflexivity.
Defined.

Lemma calculateSavingsPercentage_zero_total_witness :
  cmd.calculateSavingsPercentage
    [cost.calculatePodCost cost.NewCalculator fixture.idlePod] 12.5 = 0%float.
Proof.
  apply calculateSavingsPercentage_zero_total.
  repeat constructor. by exists false.
Defined.

Lemma getNamespace_empty_iff_witness :
  cmd.getNamespace false "kube-system" = "kube-system"
  /\ cmd.getNamespace false "" = "default".
Proof.
  split.
  - apply (proj1 (proj2 (getNamespace_empty_iff false "kube-system"))); [reflexivity|].
    discriminate.
  - apply (proj2 (proj2 (getNamespace_empty_iff false "kube-system"))). reflexivity.
Defined.

Lemma findPodsWithoutRequests_spec_witness :
  optimize.Savings
    <$> optimize.findPodsWithoutRequests [sample.bigPod; sample.gpuLimitPod] = [0%float]
  /\ optimize.findPodsWithoutRequests [sample.bigPod] = [].
Proof.
  split; [reflexivity|].
  apply (proj1 (findPodsWithoutRequests_spec [sample.bigPod])).
  intros pod Hin _. apply list_elem_of_singleton in Hin. subst pod.
  eexists. split; [left|]. intros Hempty.
  apply (f_equal (fun m : gmap string Z => m !! ResourceCPU)) in Hempty.
  vm_compute in Hempty. discriminate.
Defined.

Lemma estimateNodeCost_matches_without_gpu_witness :
  feq (cost.CalculateNodeCost cost.NewCalculator fixture.plainNode)
      (optimize.estimateNodeCost optimize.NewOptimizer fixture.plainNode) = true.
Proof.
  apply estimateNodeCost_matches_without_gpu; reflexivity.
Defined.

Lemma Analyze_without_running_pods_witness :
  optimize.Category
    <$> optimize.Analyze optimize.NewOptimizer [sample.pendingPod] [sample.gpuNode]
          [sample.hundred] = ["Unused"]
  /\ optimize.Analyze optimize.NewOptimizer [sample.pendingPod] [] [sample.hundred] = [].
Proof.
  assert (Hall : Forall (fun pod : Pod.t Z => Pod.Phase pod <> PodRunning)
                   [sample.pendingPod]).
  { repeat constructor. discriminate. }
  destruct (Analyze_without_running_pods optimize.NewOptimizer [sample.pendingPod]
              [sample.gpuNode] [sample.hundred] Hall) as [Hall1 Hall2].
  split; [rewrite Hall1; reflexivity|].
  exact (proj2 (Analyze_without_running_pods optimize.NewOptimizer [sample.pendingPod]
                  [] [sample.hundred] Hall)).
Defined.

(** ** The optimizer on the costs of its own pods *)

Section Alignment.
Import cost optimize.
Context {Qty : Type} `{QuantityOps Qty}.

(** X21: when the cost report comes out in the order of the pods (all
    pods running and already in descending order of cost, say),
    [runOptimize] charges every pod with its own cost: each "Rightsizing"
    or "GPU" recommendation is built from a pod of the input and the cost
    of that very pod. *)
Theorem runOptimize_aligned `{S : sort.Slice} (pods : list (Pod.t Qty))
    (nodes : list (Node.t Qty)) (r : Recommendation) :
  CalculatePodCosts NewCalculator pods nodes = calculatePodCost NewCalculator <$> pods ->
  r ∈ runOptimize pods nodes ->
  Category r = "Rightsizing" \/ Category r = "GPU" ->
  exists pod, pod ∈ pods /\
    (r = rightsizing pod (calculatePodCost NewCalculator pod)
     \/ r = gpuReview pod (calculatePodCost NewCalculator pod)).
Proof.
  intros Halign Hr Hcat. unfold runOptimize in Hr. rewrite Halign in Hr.
  assert (Hcost : forall i pod pc, pods !! i = Some pod ->
            (calculatePodCost NewCalculator <$> pods) !! i = Some pc ->
            pc = calculatePodCost NewCalculator pod).
  { intros i pod pc Hi Hpc. rewrite list_lookup_fmap, Hi in Hpc. by injection Hpc. }
  apply Analyze_elem in Hr as [Hr|[Hr|[Hr|Hr]]].
  - apply findOverProvisionedPods_elem in Hr as (i & pod & c & pc & Hi & _ & _ & _ & Hpc & ->).
    exists pod. split; [by eapply list_elem_of_lookup_2|]. left.
    by rewrite (Hcost i pod pc).
  - apply findPodsWithoutRequests_category in Hr. destruct Hcat; congruence.
  - apply findUnusedResources_elem in Hr as (node & _ & _ & ->).
    destruct Hcat; discriminate.
  - apply findExpensiveGPUUsage_elem in Hr as (i & pod & pc & Hi & _ & _ & Hpc & _ & ->).
    exists pod. split; [by eapply list_elem_of_lookup_2|]. right.
    by rewrite (Hcost i pod pc).
Qed.

(** X22: the "GPU" recommendations of the optimizer are exactly these:
    one for each running pod at an index [i] whose containers request at
    least one GPU in total and whose cost entry at index [i] has a GPU
    cost above 70% of its total; its savings are half of that GPU cost. *)
Theorem gpu_recommendations (o : Optimizer) (pods : list (Pod.t Qty))
    (nodes : list (Node.t Qty)) (costs : list PodCost) (r : Recommendation) :
  (r ∈ Analyze o pods nodes costs /\ Category r = "GPU") <->
  exists i pod pc, pods !! i = Some pod /\ Pod.Phase pod = PodRunning /\
    0 < requestedGPUs pod /\ costs !! i = Some pc /\
    fgt (GPUCost pc) (PrimFloat.mul (TotalCost pc) 0.7) = true /\
    r = gpuReview pod pc /\ Savings r = PrimFloat.mul (GPUCost pc) 0.5.
Proof.
  split.
  - intros [Hr Hcat]. apply Analyze_elem in Hr as [Hr|[Hr|[Hr|Hr]]].
    + apply findOverProvisionedPods_elem in Hr as (i & pod & c & pc & _ & _ & _ & _ & _ & ->).
      discriminate.
    + apply findPodsWithoutRequests_category in Hr. congruence.
    + apply findUnusedResources_elem in Hr as (node & _ & _ & ->). discriminate.
    + apply findExpensiveGPUUsage_elem in Hr as (i & pod & pc & Hi & Hrun & Hg & Hpc & Hgt & ->).
      by exists i, pod, pc.
  - intros (i & pod & pc & Hi & Hrun & Hg & Hpc & Hgt & -> & _). split; [|done].
    apply Analyze_elem. right. right. right. apply findExpensiveGPUUsage_elem.
    by exists i, pod, pc.
Qed.

End Alignment.

Section SingleNode.
Import gpu.
Context {Qty : Type} `{QuantityOps Qty}.

Lemma analyzeNode_allocated_range (node : Node.t Qty) :
  - 2 ^ 63 <= NodeGPU.AllocatedGPUs (analyzeNode node) < 2 ^ 63.
Proof.
  unfold analyzeNode.
  destruct (Node.Capacity node !! ResourceGPU), (Node.Allocatable node !! ResourceGPU);
    simpl; try apply wrap64_range; lia.
Qed.

(** X23: when the report lists a single GPU node, the cluster's
    [UtilizationPct] is the utilization printed in that node's row. *)
Theorem single_node_utilization (nodes : list (Node.t Qty)) (pods : list (Pod.t Qty))
    (n : NodeGPU.t) :
  Nodes (Analyze nodes pods) = [n] ->
  UtilizationPct (Analyze nodes pods) = visualize.nodeUtil n
  /\ TotalGPUs (Analyze nodes pods) = NodeGPU.TotalGPUs n
  /\ AllocatedGPUs (Analyze nodes pods) = NodeGPU.AllocatedGPUs n.
Proof.
  intros Hone.
  destruct (Analyze_report nodes pods) as (Hn & _ & Ht & Ha & _).
  destruct (Analyze_fields nodes pods) as [Hu _].
  assert (Hin : n ∈ analyzeNode <$> nodes).
  { assert (Hm : n ∈ Nodes (Analyze nodes pods)) by (rewrite Hone; left).
    rewrite Hn in Hm. by apply list_elem_of_filter in Hm as [_ Hm]. }
  apply list_elem_of_fmap in Hin as (node & -> & _).
  rewrite Hone in Ht, Ha. simpl in Ht, Ha. unfold sumZ in Ht, Ha. simpl in Ht, Ha.
  rewrite Z.add_0_r, wrap64_small in Ht by apply analyzeNode_total_range.
  rewrite Z.add_0_r, wrap64_small in Ha by apply analyzeNode_allocated_range.
  split; [|done]. rewrite Hu, Ht, Ha. reflexivity.
Qed.

End SingleNode.

Lemma runOptimize_aligned_witness :
  optimize.Savings
    <$> optimize.runOptimize (S := sort.goInsertion) [sample.bigPod; sample.webPod] []
  = [PrimFloat.mul (cost.TotalCost (cost.calculatePodCost cost.NewCalculator sample.bigPod)) 0.3]
  /\ exists pod, pod ∈ [sample.bigPod; sample.webPod] /\
       (optimize.rightsizing sample.bigPod
          (cost.calculatePodCost cost.NewCalculator sample.bigPod)
        = optimize.rightsizing pod (cost.calculatePodCost cost.NewCalculator pod)
        \/ optimize.rightsizing sample.bigPod
             (cost.calculatePodCost cost.NewCalculator sample.bigPod)
           = optimize.gpuReview pod (cost.calculatePodCost cost.NewCalculator pod)).
Proof.
  split; [reflexivity|].
  apply (runOptimize_aligned (S := sort.goInsertion) [sample.bigPod; sample.webPod] []).
  - reflexivity.
  - vm_compute. left.
  - left. reflexivity.
Defined.

Lemma gpu_recommendations_witness :
  optimize.gpuReview fixture.gpuPod fixture.eighty
    ∈ optimize.Analyze optimize.NewOptimizer [fixture.gpuPod] [] [fixture.eighty]
  /\ optimize.Savings (optimize.gpuReview fixture.gpuPod fixture.eighty) = 40%float.
Proof.
  split; [|reflexivity].
  apply (proj2 (gpu_recommendations optimize.NewOptimizer [fixture.gpuPod] []
                  [fixture.eighty] (optimize.gpuReview fixture.gpuPod fixture.eighty))).
  exists 0%nat, fixture.gpuPod, fixture.eighty. repeat split; reflexivity.
Defined.

Lemma single_node_utilization_witness :
  gpu.UtilizationPct (gpu.Analyze [fixture.plainNode; sample.busyGPUNode] [])
  = visualize.nodeUtil (gpu.analyzeNode sample.busyGPUNode)
  /\ visualize.nodeUtil (gpu.analyzeNode sample.busyGPUNode) = 75%float.
Proof.
  split; [|reflexivity].
  apply (single_node_utilization [fixture.plainNode; sample.busyGPUNode] []).
  reflexivity.
Defined.
